(** * A tool-calling chat orchestrator, verified over a shallow embedding

    The development follows the TypeScript sources file by file, then
    states and proves what the specification says of them.

    Definitions
    - [JS]        the fragment of JavaScript's dynamic semantics the sources
                  rely on: values as [JSON.parse] builds them, truthiness,
                  property reads, optional chaining, [for..of],
                  [Array.prototype.find], template-literal conversion,
                  exceptions;
    - [Platform]  the outside world (network, tool back ends, built-ins)
                  and the monad of [async] functions over it;
    - [Tools]     tools.ts: [executeCalculate];
    - [Chat]      chat.ts: [executeTool] and [handleChat];
    - [Worker]    index.ts: the [fetch] route handler;
    - [Gateway]   the specification's vocabulary (outcomes, rounds, the
                  state builder), to be compared with the code;
    - [Scripted]  a concrete environment for worked sessions.

    Theorems
    - [JSFacts], [Refinement], [Dispatcher], [Loop], [Observed]: the
      lemmas the claims rest on;
    - [ToolsSpec], [Orchestrator], [Routing]: the claims;
    - [Scenarios]: the specification's scenarios and other sessions, run.

    Strings are Rocq [string]s holding the UTF-8 bytes of the JavaScript
    string; numbers are IEEE 754 binary64 values ([PrimFloat.float]), which
    is what a JavaScript number is. *)

From Stdlib Require Import String Ascii List Bool Arith ZArith Lia Floats DecimalString.
Import ListNotations.

Set Warnings "-register-all".

Local Open Scope string_scope.

(* ===================================================================== *)
(** * JavaScript values and the operations the sources use                *)
(* ===================================================================== *)

Module JS.

(** A value as [JSON.parse] builds it, plus [undefined], which property
    reads produce.  An object keeps its fields in insertion order. *)
Inductive value : Type :=
| VUndefined
| VNull
| VBool (b : bool)
| VNum (x : float)
| VStr (s : string)
| VArr (elems : list value)
| VObj (fields : list (string * value)).

(** What a [throw] carries: every exception the sources can meet is an
    [Error] object, of which [message] is read.  The texts of the engine's
    own errors follow V8; nothing proved below depends on them. *)
Record Error : Type := mkError { err_name : string; err_message : string }.

Definition TypeError (msg : string) : Error := mkError "TypeError" msg.
Definition SyntaxError (msg : string) : Error := mkError "SyntaxError" msg.

(** Completion of an evaluation: a value, or an exception on its way up. *)
Inductive completion (A : Type) : Type :=
| Normal (a : A)
| Throw (e : Error).
Arguments Normal {A} a.
Arguments Throw {A} e.

Definition cbind {A B} (c : completion A) (k : A -> completion B) : completion B :=
  match c with
  | Normal a => k a
  | Throw e => Throw e
  end.

Definition nullish (v : value) : bool :=
  match v with
  | VUndefined | VNull => true
  | _ => false
  end.

(** ToBoolean. *)
Definition truthy (v : value) : bool :=
  match v with
  | VUndefined | VNull => false
  | VBool b => b
  | VNum x => negb (PrimFloat.eqb x 0%float || PrimFloat.is_nan x)
  | VStr s => negb (s =? "")
  | VArr _ | VObj _ => true
  end.

(** [a || b] *)
Definition or_else (a b : value) : value := if truthy a then a else b.

(** [typeof v === "string"] *)
Definition is_string (v : value) : bool :=
  match v with
  | VStr _ => true
  | _ => false
  end.

(** [v === "lit"] for a string literal. *)
Definition seq_str (v : value) (lit : string) : bool :=
  match v with
  | VStr s => s =? lit
  | _ => false
  end.

(** [v === 0]: IEEE equality, so [-0] is equal to [0] and [NaN] is not. *)
Definition seq_zero (v : value) : bool :=
  match v with
  | VNum x => PrimFloat.eqb x 0%float
  | _ => false
  end.

Fixpoint lookup (key : string) (fields : list (string * value)) : value :=
  match fields with
  | [] => VUndefined
  | (k, v) :: rest => if k =? key then v else lookup key rest
  end.

Definition describe_nullish (v : value) : string :=
  match v with
  | VNull => "null"
  | _ => "undefined"
  end.

Definition cannot_read (v : value) (key : string) : Error :=
  TypeError ("Cannot read properties of " ++ describe_nullish v
             ++ " (reading '" ++ key ++ "')").

(** [v.key] for the property names the sources read ([error], [message],
    [candidates], [content], [parts], [functionCall], [text], [name],
    [args], [role], [operation], [a], [b], [history]).  None of them is
    defined on a prototype, so only an object can answer; reading through
    [null] or [undefined] throws.  ([length] and [find] are handled by
    [has_length] and [find] below.) *)
Definition get (v : value) (key : string) : completion value :=
  match v with
  | VUndefined | VNull => Throw (cannot_read v key)
  | VObj fields => Normal (lookup key fields)
  | VBool _ | VNum _ | VStr _ | VArr _ => Normal VUndefined
  end.

(** [v?.key] *)
Definition get_opt (v : value) (key : string) : completion value :=
  if nullish v then Normal VUndefined else get v key.

(** UTF-8: a byte [10xxxxxx] continues the code point begun before it. *)
Definition is_continuation (c : ascii) : bool :=
  let n := nat_of_ascii c in Nat.leb 128 n && Nat.ltb n 192.

(** The code points of a string, each as a string of its own: what
    iterating a JavaScript string yields. *)
Fixpoint code_points (s : string) : list string :=
  match s with
  | EmptyString => []
  | String c rest =>
      match rest with
      | String c' _ =>
          if is_continuation c' then
            match code_points rest with
            | h :: t => String c h :: t
            | [] => [String c EmptyString]
            end
          else String c EmptyString :: code_points rest
      | EmptyString => [String c EmptyString]
      end
  end.

(** [v?.[0]].  On a string the answer is its first character; nothing is
    ever read from it but properties a string does not have. *)
Definition first_opt (v : value) : completion value :=
  match v with
  | VUndefined | VNull => Normal VUndefined
  | VArr elems => Normal (nth 0 elems VUndefined)
  | VObj fields => Normal (lookup "0" fields)
  | VStr s => Normal (match code_points s with h :: _ => VStr h | [] => VUndefined end)
  | VBool _ | VNum _ => Normal VUndefined
  end.

(** [!!(v?.length)].  The sources read [length] only to test it, so the
    model gives the outcome of the test: an array or a string has a
    non-zero length when it is not empty, an object can carry a field of
    that name, nothing else has one. *)
Definition has_length (v : value) : bool :=
  match v with
  | VArr elems => negb (Nat.eqb (List.length elems) 0)
  | VStr s => negb (s =? "")
  | VObj fields => truthy (lookup "length" fields)
  | VUndefined | VNull | VBool _ | VNum _ => false
  end.

(** [Array.prototype.find] with a callback that may throw: the first
    element whose test is truthy, [undefined] when there is none. *)
Fixpoint array_find (test : value -> completion value) (elems : list value)
  : completion value :=
  match elems with
  | [] => Normal VUndefined
  | x :: rest =>
      match test x with
      | Throw e => Throw e
      | Normal t => if truthy t then Normal x else array_find test rest
      end
  end.

(** [v.find(test)]: only an array has the method. *)
Definition find (v : value) (test : value -> completion value) : completion value :=
  match v with
  | VArr elems => array_find test elems
  | VUndefined | VNull => Throw (cannot_read v "find")
  | VBool _ | VNum _ | VStr _ | VObj _ => Throw (TypeError "parts.find is not a function")
  end.

(** [for (const x of v)]: arrays and strings are iterable. *)
Definition iterate (v : value) : completion (list value) :=
  match v with
  | VArr elems => Normal elems
  | VStr s => Normal (map VStr (code_points s))
  | VUndefined | VNull | VBool _ | VNum _ | VObj _ =>
      Throw (TypeError "history is not iterable")
  end.

Section Conversions.

(** [Number::toString] prints the shortest decimal that reads back as the
    same double; it is taken from the platform. *)
Variable number_to_string : float -> string.

Fixpoint join (sep : string) (l : list string) : string :=
  match l with
  | [] => ""
  | [x] => x
  | x :: rest => x ++ sep ++ join sep rest
  end.

(** ToString, as a template literal applies it. *)
Fixpoint ToString (v : value) : string :=
  match v with
  | VUndefined => "undefined"
  | VNull => "null"
  | VBool true => "true"
  | VBool false => "false"
  | VNum x => number_to_string x
  | VStr s => s
  | VArr elems =>
      join "," (map (fun e => if nullish e then "" else ToString e) elems)
  | VObj _ => "[object Object]"
  end.

End Conversions.

Inductive binop : Type := Add | Sub | Mul | Div.

(** [a + b], [a - b], [a * b], [a / b].  On two numbers these are the IEEE
    operations; on anything else JavaScript first coerces the operands
    (and [+] may concatenate), which is left to [coerced]. *)
Definition arith (coerced : binop -> value -> value -> value)
    (op : binop) (a b : value) : value :=
  match a, b with
  | VNum x, VNum y =>
      VNum (match op with
            | Add => x + y
            | Sub => x - y
            | Mul => x * y
            | Div => x / y
            end)%float
  | _, _ => coerced op a b
  end.

End JS.

Import JS.

Notation "x <~ c ;; k" := (cbind c (fun x => k))
  (at level 61, c at next level, right associativity).

(* ===================================================================== *)
(** * The world outside: network, tool back ends, platform built-ins      *)
(* ===================================================================== *)

Module Platform.

(** One turn of the transcript sent to the completion service
    (chat.ts:189, 197, 250, 254): [{ role, parts }]. *)
Record content : Type := mkContent { role : string; parts : value }.

(** What the sources read of a [fetch] response: [geminiRes.ok] and the
    outcome of [await geminiRes.json()], which throws when the body is
    not JSON. *)
Record Response : Type := mkResponse { ok : bool; json : completion value }.

(** Everything the program does not decide itself.  [World] is the state
    of the outside (servers, clock); every call may read and change it,
    and may throw.  The executors of tools.ts that wrap a remote service
    or the clock are fields here, with the types their signatures
    declare, so what is proved holds whatever they do. *)
Record Environment : Type := mkEnvironment {
  World : Type;
  (** [Number::toString] *)
  number_to_string : float -> string;
  (** arithmetic on operands that are not both numbers *)
  coerced_arith : binop -> value -> value -> value;
  (** [JSON.stringify] *)
  JSON_stringify : value -> string;
  (** chat.ts:210 [await fetch(url, { method: "POST", body: { contents,
      tools: [{ functionDeclarations }] } })]: resolves to a response or
      rejects.  The [tools] member is the same constant table on every
      call. *)
  http_post : string -> list content -> World -> completion Response * World;
  (** tools.ts:15, 44, 65, 78, 97, 122, 175 *)
  executeWeather : value -> World -> completion string * World;
  executeExchangeRate : value -> World -> completion string * World;
  executeTranslate : value -> string -> World -> completion string * World;
  executeSummarize : value -> string -> World -> completion string * World;
  executeWebSearch : value -> World -> completion string * World;
  executeFetchUrl : value -> World -> completion string * World;
  executeDatetime : value -> World -> completion string * World
}.

Section Effects.

Variable E : Environment.

(** An [async] computation: it steps the world and completes. *)
Definition M (A : Type) : Type := World E -> completion A * World E.

Definition ret {A} (a : A) : M A := fun w => (Normal a, w).

Definition bind {A B} (m : M A) (k : A -> M B) : M B :=
  fun w =>
    match m w with
    | (Normal a, w') => k a w'
    | (Throw e, w') => (Throw e, w')
    end.

(** A synchronous step inside an [async] function. *)
Definition lift {A} (c : completion A) : M A := fun w => (c, w).

(** [try { body } catch (err) { handler }]: what the body did to the
    world before it threw stays done. *)
Definition try_catch {A} (body : M A) (handler : Error -> M A) : M A :=
  fun w =>
    match body w with
    | (Normal a, w') => (Normal a, w')
    | (Throw e, w') => handler e w'
    end.

End Effects.

Arguments ret {E A} a.
Arguments bind {E A B} m k.
Arguments lift {E A} c.
Arguments try_catch {E A} body handler.

End Platform.

Import Platform.

Notation "x <- c ;; k" := (bind c (fun x => k))
  (at level 61, c at next level, right associativity).

(* ===================================================================== *)
(** * tools.ts                                                            *)
(* ===================================================================== *)

Module Tools.

Section WithEnvironment.

Variable E : Environment.

Local Abbreviation str := (ToString (number_to_string E)).
Local Abbreviation op := (arith (coerced_arith E)).

(** tools.ts:153-170.  The function is [async] but awaits nothing: it
    either returns its string or throws (when [args] cannot be
    destructured). *)
Definition executeCalculate (args : value) : completion string :=
  operation <~ get args "operation" ;;
  a <~ get args "a" ;;
  b <~ get args "b" ;;
  let answer (result : value) : completion string :=
    Normal (str a ++ " " ++ str operation ++ " " ++ str b ++ " = " ++ str result) in
  if seq_str operation "add" then answer (op Add a b)
  else if seq_str operation "subtract" then answer (op Sub a b)
  else if seq_str operation "multiply" then answer (op Mul a b)
  else if seq_str operation "divide" then
    if seq_zero b then Normal "오류: 0으로 나눌 수 없습니다"
    else answer (op Div a b)
  else Normal ("알 수 없는 연산: " ++ str operation).

End WithEnvironment.

End Tools.

(* ===================================================================== *)
(** * chat.ts                                                             *)
(* ===================================================================== *)

Module Chat.

Definition GEMINI_MODEL : string := "gemini-3-pro-preview".
Definition MAX_TOOL_CALLS : nat := 5.

(** chat.ts:30-128, the names of the declared tools, in order.  (The
    descriptions and parameter schemas are prose for the model; the
    orchestrator never reads them.) *)
Definition functionDeclarations : list string :=
  ["weather"; "exchange_rate"; "translate"; "summarize"; "web_search";
   "fetch_url"; "calculate"; "datetime"].

(** chat.ts:163 [ChatResponse].  The interface declares strings; at run
    time [reply] is whatever the service put in a [text] field and the
    entries of [tools_used] whatever it put in [name]. *)
Record ChatResponse : Type := mkChatResponse {
  reply : value;
  tools_used : list value
}.

(** chat.ts:158-161 [ChatMessage], the shape of a history entry. *)
Inductive Role : Type := user | assistant.

Record ChatMessage : Type := mkChatMessage { role : Role; text : string }.

(** A history of that shape as the caller's JSON carries it. *)
Definition message_value (m : ChatMessage) : value :=
  VObj [("role", VStr (match role m with user => "user" | assistant => "assistant" end));
        ("text", VStr (text m))].

Definition history_value (h : list ChatMessage) : value :=
  VArr (map message_value h).

(** A line feed, [\n] in the template literals. *)
Definition LF : string := String (ascii_of_nat 10) EmptyString.

(** chat.ts:182-185 *)
Definition systemPrompt : string :=
  "당신은 친절하고 유능한 AI 어시스턴트입니다. 한국어로 답변하세요. " ++
  "사용자의 질문에 따라 적절한 도구(함수)를 사용하여 실시간 정보를 제공하세요. " ++
  "도구를 사용할 필요 없는 일반 대화에는 도구를 호출하지 마세요.".

(** [[{ text: t }]] *)
Definition text_parts (t : value) : value := VArr [VObj [("text", t)]].

(** chat.ts:256 [[{ functionResponse: { name, response: { result } } }]] *)
Definition function_response (name : value) (toolResult : string) : value :=
  VArr [VObj [("functionResponse",
               VObj [("name", name);
                     ("response", VObj [("result", VStr toolResult)])])]].

(** chat.ts:189-192, the body of the loop over [history]. *)
Definition history_turn (msg : value) : completion content :=
  r <~ get msg "role" ;;
  t <~ get msg "text" ;;
  Normal (mkContent (if seq_str r "assistant" then "model" else "user")
                    (text_parts t)).

Fixpoint history_turns (msgs : list value) : completion (list content) :=
  match msgs with
  | [] => Normal []
  | msg :: rest =>
      c <~ history_turn msg ;;
      cs <~ history_turns rest ;;
      Normal (c :: cs)
  end.

(** chat.ts:179-206: the transcript the first request carries. *)
Definition initial_contents (message : string) (history : value)
  : completion (list content) :=
  msgs <~ iterate history ;;
  contents <~ history_turns msgs ;;
  if Nat.eqb (List.length contents) 0 then
    Normal (contents ++
      [mkContent "user"
         (text_parts (VStr (systemPrompt ++ LF ++ LF ++ "사용자 질문: " ++ message)))])%list
  else
    Normal (contents ++ [mkContent "user" (text_parts (VStr message))])%list.

(** The two local variables the loop updates. *)
Record session : Type := mkSession {
  contents : list content;
  toolsUsed : list value
}.

(** How one pass through the loop body ends: [continue], or [return]. *)
Inductive pass : Type :=
| Continue (st : session)
| Return (r : ChatResponse).

Definition endpoint (apiKey : string) : string :=
  "https://generativelanguage.googleapis.com/v1beta/models/" ++ GEMINI_MODEL
  ++ ":generateContent?key=" ++ apiKey.

Section WithEnvironment.

Variable E : Environment.

Local Abbreviation str := (ToString (number_to_string E)).

(** chat.ts:133-153 *)
Definition executeTool (name args : value) (apiKey : string) : M E string :=
  try_catch
    (if seq_str name "weather" then executeWeather E args
     else if seq_str name "exchange_rate" then executeExchangeRate E args
     else if seq_str name "translate" then executeTranslate E args apiKey
     else if seq_str name "summarize" then executeSummarize E args apiKey
     else if seq_str name "web_search" then executeWebSearch E args
     else if seq_str name "fetch_url" then executeFetchUrl E args
     else if seq_str name "calculate" then lift (Tools.executeCalculate E args)
     else if seq_str name "datetime" then executeDatetime E args
     else ret ("알 수 없는 도구: " ++ str name))
    (fun err => ret ("도구 실행 오류 (" ++ str name ++ "): " ++ err_message err)).

(** chat.ts:210-269, one pass through the body of the [for] loop. *)
Definition iteration (apiKey : string) (st : session) : M E pass :=
  geminiRes <- http_post E (endpoint apiKey) (contents st) ;;
  geminiData <- lift (json geminiRes) ;;
  if negb (ok geminiRes) then
    error <- lift (get geminiData "error") ;;
    message <- lift (get_opt error "message") ;;
    ret (Return (mkChatResponse
      (VStr ("Gemini API 오류가 발생했습니다: "
             ++ str (or_else message (VStr (JSON_stringify E geminiData)))))
      (toolsUsed st)))
  else
    candidates <- lift (get geminiData "candidates") ;;
    candidate <- lift (first_opt candidates) ;;
    content0 <- lift (get_opt candidate "content") ;;
    parts0 <- lift (get_opt content0 "parts") ;;
    if negb (has_length parts0) then
      ret (Return (mkChatResponse (VStr "Gemini에서 응답을 받지 못했습니다.") (toolsUsed st)))
    else
      content1 <- lift (get candidate "content") ;;
      parts <- lift (get content1 "parts") ;;
      functionCallPart <- lift (find parts (fun p => get p "functionCall")) ;;
      if truthy functionCallPart then
        functionCall <- lift (get functionCallPart "functionCall") ;;
        name <- lift (get functionCall "name") ;;
        args <- lift (get functionCall "args") ;;
        let toolsUsed' := (toolsUsed st ++ [name])%list in
        toolResult <- executeTool name args apiKey ;;
        ret (Continue (mkSession
          (contents st ++ [mkContent "model" parts;
                           mkContent "user" (function_response name toolResult)])%list
          toolsUsed'))
      else
        textPart <- lift (find parts (fun p => get p "text")) ;;
        if truthy textPart then
          text <- lift (get textPart "text") ;;
          ret (Return (mkChatResponse text (toolsUsed st)))
        else
          ret (Return (mkChatResponse (VStr "응답을 처리할 수 없습니다.") (toolsUsed st))).

(** chat.ts:209-275: [for (let i = 0; i < MAX_TOOL_CALLS; i++)], counted
    by the passes that remain.  Besides the response it hands back the
    session as it stood when the function returned. *)
Fixpoint tool_loop (apiKey : string) (remaining : nat) (st : session)
  : M E (session * ChatResponse) :=
  match remaining with
  | 0 =>
      ret (st, mkChatResponse
                 (VStr "도구 호출 횟수 제한에 도달했습니다. 질문을 다시 시도해주세요.")
                 (toolsUsed st))
  | S remaining' =>
      p <- iteration apiKey st ;;
      match p with
      | Return r => ret (st, r)
      | Continue st' => tool_loop apiKey remaining' st'
      end
  end.

(** chat.ts:171-276 with the final session kept. *)
Definition chat_session (message : string) (history : value) (apiKey : string)
  : M E (session * ChatResponse) :=
  contents0 <- lift (initial_contents message history) ;;
  tool_loop apiKey MAX_TOOL_CALLS (mkSession contents0 []).

(** chat.ts:171-276 *)
Definition handleChat (message : string) (history : value) (apiKey : string)
  : M E ChatResponse :=
  r <- chat_session message history apiKey ;;
  ret (snd r).

End WithEnvironment.

End Chat.

(* ===================================================================== *)
(** * index.ts: the route handler                                         *)
(* ===================================================================== *)

Module Worker.

(** What the handler reads of the incoming request: [url.pathname],
    [request.method], and the outcome of [await request.json()]. *)
Record Request : Type := mkRequest {
  pathname : string;
  method : string;
  body : completion value
}.

(** [env.GEMINI_API_KEY]: a secret of the deployment, absent when it was
    not configured. *)
Record Env : Type := mkEnv { GEMINI_API_KEY : option string }.

Inductive HttpResponse : Type :=
| Page                                    (** index.ts:371, the chat page of ui.ts *)
| JsonBody (status : nat) (payload : value) (** [Response.json(payload, { status })] *)
| Plain (status : nat) (text : string)
| Served (prefix : string).               (** handed to [MyMCP.serve(prefix)] *)

Definition error_body (msg : string) : value := VObj [("error", VStr msg)].

Definition chat_body (r : Chat.ChatResponse) : value :=
  VObj [("reply", Chat.reply r); ("tools_used", VArr (Chat.tools_used r))].

(** [!apiKey] *)
Definition key_missing (k : option string) : bool :=
  match k with
  | None => true
  | Some s => s =? ""
  end.

Section WithEnvironment.

Variable E : Environment.

(** index.ts:378-395, the [/api/chat] branch. *)
Definition chat_route (request : Request) (env : Env) : M E HttpResponse :=
  try_catch
    (body <- lift (body request) ;;
     message <- lift (get body "message") ;;
     history <- lift (get body "history") ;;
     if negb (truthy message) || negb (is_string message) then
       ret (JsonBody 400 (error_body "message is required"))
     else
       let apiKey := GEMINI_API_KEY env in
       if key_missing apiKey then
         ret (JsonBody 500 (error_body "GEMINI_API_KEY not configured"))
       else
         result <- Chat.handleChat E
                     (match message with VStr m => m | _ => "" end)
                     (or_else history (VArr []))
                     (match apiKey with Some k => k | None => "" end) ;;
         ret (JsonBody 200 (chat_body result)))
    (fun err => ret (JsonBody 500 (error_body (err_message err)))).

(** index.ts:366-408 *)
Definition fetch (request : Request) (env : Env) : M E HttpResponse :=
  if (pathname request =? "/") && (method request =? "GET") then ret Page
  else if (pathname request =? "/api/chat") && (method request =? "POST") then
    chat_route request env
  else if (pathname request =? "/mcp") || (pathname request =? "/mcp/message") then
    ret (Served "/mcp")
  else if (pathname request =? "/sse") || (pathname request =? "/sse/message") then
    ret (Served "/sse")
  else ret (Plain 404 "Not Found").

End WithEnvironment.

End Worker.

(* ===================================================================== *)
(** * The specification's view of one pass                                *)
(* ===================================================================== *)

(** The specification describes the loop through a "completion gateway"
    that turns a response into one of a closed set of outcomes, and a
    state machine over those outcomes.  chat.ts has no such function: the
    loop body reads the response in place.  The definitions below follow
    the specification's words; [Refinement.iteration_advance] proves that
    a pass of the loop is exactly this gateway followed by this step. *)

Module Gateway.

Inductive outcome : Type :=
| ServiceError (message : string)
| Malformed
| ToolCallRequested (name args rawModelTurn : value)
| FinalAnswer (text : value)
| Unrecognized.

(** [geminiData.candidates?.[0]?.content?.parts] *)
Definition segments (geminiData : value) : completion value :=
  candidates <~ get geminiData "candidates" ;;
  candidate <~ first_opt candidates ;;
  content <~ get_opt candidate "content" ;;
  get_opt content "parts".

(** The call a segment list asks for: its first segment with a
    [functionCall], if it has one. *)
Definition requested (parts : value) : completion value :=
  find parts (fun p => get p "functionCall").

(** The name that call carries. *)
Definition requested_name (parts : value) : completion value :=
  call <~ requested parts ;;
  functionCall <~ get call "functionCall" ;;
  get functionCall "name".

(** One tool call of a session: the model turn that asked for it, the
    name it asked for, and what the dispatcher answered. *)
Record round : Type := mkRound {
  rawModelTurn : value;
  toolName : value;
  toolResult : string
}.

(** The result turn names the call its model turn asked for. *)
Definition answered (x : round) : Prop :=
  requested_name (rawModelTurn x) = Normal (toolName x).

(** The fixed text in front of the first question, chat.ts:199: the
    system prompt, a blank line, and the label that introduces the
    question. *)
Definition system_instruction : string :=
  Chat.systemPrompt ++ Chat.LF ++ Chat.LF ++ "사용자 질문: ".

(** The specification's state builder (its 4.3): prior turns with their
    roles mapped, then the new user turn. *)
Definition prior_turn (m : Chat.ChatMessage) : content :=
  mkContent (match Chat.role m with Chat.assistant => "model" | Chat.user => "user" end)
            (Chat.text_parts (VStr (Chat.text m))).

Definition build (priorHistory : list Chat.ChatMessage) (newUserMessage : string)
  : list content :=
  match priorHistory with
  | [] =>
      [mkContent "user"
         (Chat.text_parts (VStr (system_instruction ++ newUserMessage)))]
  | _ =>
      (map prior_turn priorHistory
       ++ [mkContent "user" (Chat.text_parts (VStr newUserMessage))])%list
  end.

(** The operations the calculator knows, tools.ts:161-164. *)
Definition operations : list string := ["add"; "subtract"; "multiply"; "divide"].

(** The reply to a response with a non-success status, chat.ts:226. *)
Definition service_error_reply (message : string) : value :=
  VStr ("Gemini API 오류가 발생했습니다: " ++ message).

(** The fixed replies of chat.ts:233, 269 and 273. *)
Definition no_response_reply : value := VStr "Gemini에서 응답을 받지 못했습니다.".
Definition unprocessable_reply : value := VStr "응답을 처리할 수 없습니다.".
Definition budget_reply : value :=
  VStr "도구 호출 횟수 제한에 도달했습니다. 질문을 다시 시도해주세요.".

Section WithEnvironment.

Variable E : Environment.

Local Abbreviation str := (ToString (number_to_string E)).

Definition complete (geminiRes : Response) : completion outcome :=
  geminiData <~ json geminiRes ;;
  if negb (ok geminiRes) then
    error <~ get geminiData "error" ;;
    message <~ get_opt error "message" ;;
    Normal (ServiceError (str (or_else message (VStr (JSON_stringify E geminiData)))))
  else
    parts <~ segments geminiData ;;
    if negb (has_length parts) then Normal Malformed
    else
      call <~ requested parts ;;
      if truthy call then
        functionCall <~ get call "functionCall" ;;
        name <~ get functionCall "name" ;;
        args <~ get functionCall "args" ;;
        Normal (ToolCallRequested name args parts)
      else
        textPart <~ find parts (fun p => get p "text") ;;
        if truthy textPart then
          text <~ get textPart "text" ;;
          Normal (FinalAnswer text)
        else Normal Unrecognized.

(** The two turns a tool call adds to the transcript. *)
Definition exchange (x : round) : list content :=
  [mkContent "model" (rawModelTurn x);
   mkContent "user" (Chat.function_response (toolName x) (toolResult x))].

(** A session after one more tool call. *)
Definition extend (st : Chat.session) (x : round) : Chat.session :=
  Chat.mkSession (Chat.contents st ++ exchange x)%list
                 (Chat.toolsUsed st ++ [toolName x])%list.

(** One transition of the state machine. *)
Definition advance (apiKey : string) (st : Chat.session) (o : outcome) : M E Chat.pass :=
  let stop (reply : value) :=
    ret (Chat.Return (Chat.mkChatResponse reply (Chat.toolsUsed st))) in
  match o with
  | ServiceError message =>
      stop (service_error_reply message)
  | Malformed => stop no_response_reply
  | FinalAnswer text => stop text
  | Unrecognized => stop unprocessable_reply
  | ToolCallRequested name args rawModelTurn =>
      toolResult <- Chat.executeTool E name args apiKey ;;
      ret (Chat.Continue (extend st (mkRound rawModelTurn name toolResult)))
  end.

(** What the [catch] clause of [executeTool] answers, chat.ts:151. *)
Definition failure_text (name : value) (err : Error) : string :=
  "도구 실행 오류 (" ++ str name ++ "): " ++ err_message err.

(** What its [default] case answers, chat.ts:148. *)
Definition unknown_text (name : value) : string := "알 수 없는 도구: " ++ str name.

(** The switch of [executeTool] read as a table: the executor registered
    under a name, if there is one. *)
Definition resolve (name : value) : option (value -> string -> M E string) :=
  if seq_str name "weather" then Some (fun args _ => executeWeather E args)
  else if seq_str name "exchange_rate" then Some (fun args _ => executeExchangeRate E args)
  else if seq_str name "translate" then Some (executeTranslate E)
  else if seq_str name "summarize" then Some (executeSummarize E)
  else if seq_str name "web_search" then Some (fun args _ => executeWebSearch E args)
  else if seq_str name "fetch_url" then Some (fun args _ => executeFetchUrl E args)
  else if seq_str name "calculate" then
    Some (fun args _ => lift (Tools.executeCalculate E args))
  else if seq_str name "datetime" then Some (fun args _ => executeDatetime E args)
  else None.

End WithEnvironment.

(** An environment under observation: the same outside world, plus a log
    of the transcripts that were posted to the completion service, in
    order.  Tools run as before and leave the log alone. *)
Definition unobserved {A : Type} (E : Environment)
    (run : World E -> completion A * World E)
    (wl : World E * list (list content))
  : completion A * (World E * list (list content)) :=
  let (r, w') := run (fst wl) in (r, (w', snd wl)).

Definition logged (E : Environment) : Environment :=
  mkEnvironment (World E * list (list content))
    (number_to_string E)
    (coerced_arith E)
    (JSON_stringify E)
    (fun url transcript wl =>
       let (r, w') := http_post E url transcript (fst wl) in
       (r, (w', snd wl ++ [transcript])%list))
    (fun args => unobserved E (executeWeather E args))
    (fun args => unobserved E (executeExchangeRate E args))
    (fun args apiKey => unobserved E (executeTranslate E args apiKey))
    (fun args apiKey => unobserved E (executeSummarize E args apiKey))
    (fun args => unobserved E (executeWebSearch E args))
    (fun args => unobserved E (executeFetchUrl E args))
    (fun args => unobserved E (executeDatetime E args)).

(** A response body of the shape the loop can read without throwing: not
    [null], and its segment list, when it has a length, is an array with
    no [null] entry. *)
Definition well_shaped (geminiData : value) : bool :=
  negb (nullish geminiData) &&
  match segments geminiData with
  | Normal (VArr parts) => forallb (fun p => negb (nullish p)) parts
  | Normal parts => negb (has_length parts)
  | Throw _ => false
  end.

(** The completion service never fails to answer, and answers in shape. *)
Definition well_behaved (E : Environment) : Prop :=
  forall url transcript w, exists geminiRes w1 geminiData,
    http_post E url transcript w = (Normal geminiRes, w1) /\
    json geminiRes = Normal geminiData /\
    well_shaped geminiData = true.

(** The completion service answers every call with a tool-call request. *)
Definition always_requests_tool (E : Environment) : Prop :=
  forall url transcript w, exists geminiRes w1 name args raw,
    http_post E url transcript w = (Normal geminiRes, w1) /\
    complete E geminiRes = Normal (ToolCallRequested name args raw).

End Gateway.

(* ===================================================================== *)
(** * A scripted environment, for worked examples                         *)
(* ===================================================================== *)

Module Scripted.

Inductive event : Type :=
| Posted (url : string) (transcript : list content)
| Ran (tool : string) (args : value).

(** The completion service answers from [replies], then with [afterwards]
    for ever; [journal] records what was asked of the outside, in order. *)
Record world : Type := mkWorld {
  replies : list (completion Response);
  afterwards : completion Response;
  journal : list event
}.

Definition is_post (ev : event) : bool :=
  match ev with
  | Posted _ _ => true
  | Ran _ _ => false
  end.

Definition record (ev : event) (w : world) : world :=
  mkWorld (replies w) (afterwards w) (journal w ++ [ev]).

Definition post (url : string) (transcript : list content) (w : world)
  : completion Response * world :=
  match replies w with
  | r :: rest => (r, mkWorld rest (afterwards w) (journal w ++ [Posted url transcript]))
  | [] => (afterwards w, record (Posted url transcript) w)
  end.

Definition answers (tool result : string) (args : value) (w : world)
  : completion string * world :=
  (Normal result, record (Ran tool args) w).

Definition fails (tool reason : string) (args : value) (w : world)
  : completion string * world :=
  (Throw (TypeError reason), record (Ran tool args) w).

(** Whole numbers print as JavaScript prints them; a fraction is cut off.
    Enough for the examples, which use whole numbers only. *)
Definition show_number (x : float) : string :=
  match Prim2SF x with
  | S754_zero _ => "0"
  | S754_infinity false => "Infinity"
  | S754_infinity true => "-Infinity"
  | S754_nan => "NaN"
  | S754_finite s m e =>
      let whole := (if 0 <=? e then Z.pos m * 2 ^ e else Z.pos m / 2 ^ (- e))%Z in
      (if s then "-" else "") ++ NilZero.string_of_uint (N.to_uint (Z.to_N whole))
  end.

(** The same, with a completion service that gives one answer to every
    call. *)
Definition repost (r : completion Response) (url : string)
    (transcript : list content) (w : world) : completion Response * world :=
  (r, record (Posted url transcript) w).

Definition environment
    (service : string -> list content -> world -> completion Response * world)
  : Environment :=
  mkEnvironment world
    show_number
    (fun _ _ _ => VNum PrimFloat.nan)
    (fun _ => "{}")
    service
    (answers "weather" "Seoul: 5°C, clear")
    (answers "exchange_rate" "1 USD = 1300 KRW")
    (fun args _ => answers "translate" "안녕하세요" args)
    (fun args _ => answers "summarize" "a summary" args)
    (answers "web_search" "no results")
    (fails "fetch_url" "fetch failed")
    (answers "datetime" "2025-01-01 09:00 KST").

Definition env : Environment := environment post.

Definition constant (r : completion Response) : Environment :=
  environment (repost r).

(** A response body with one candidate carrying the given segments. *)
Definition candidate (segments : list value) : value :=
  VObj [("candidates",
         VArr [VObj [("content", VObj [("role", VStr "model");
                                       ("parts", VArr segments)])]])].

Definition call_segment (name : string) (args : value) : value :=
  VObj [("functionCall", VObj [("name", VStr name); ("args", args)]);
        ("thoughtSignature", VStr "c2lnbmF0dXJl")].

Definition text_segment (t : string) : value := VObj [("text", VStr t)].

Definition ok_reply (data : value) : completion Response :=
  Normal (mkResponse true (Normal data)).

Definition calls (name : string) (args : value) : completion Response :=
  ok_reply (candidate [call_segment name args]).

Definition says (t : string) : completion Response :=
  ok_reply (candidate [text_segment t]).

Definition offline : completion Response := Throw (TypeError "fetch failed").

(** A response with a non-success status and the service's error body. *)
Definition refuses (reason : string) : completion Response :=
  Normal (mkResponse false
            (Normal (VObj [("error", VObj [("code", VNum 429);
                                           ("message", VStr reason)])]))).

(** A response whose body is not JSON. *)
Definition garbled : completion Response :=
  Normal (mkResponse true (Throw (SyntaxError "Unexpected token '<'"))).

(** The session after the first user turn of a conversation. *)
Definition asked (question : string) : Chat.session :=
  Chat.mkSession [mkContent "user" (Chat.text_parts (VStr question))] [].

Definition Seoul : value := VObj [("city", VStr "Seoul")].

Definition start (script : list (completion Response))
    (afterwards : completion Response) : world :=
  mkWorld script afterwards [].

End Scripted.


(* ===================================================================== *)
(** * Object literals used as tables                                      *)
(* ===================================================================== *)

Module JSObjects.

(** The property names every plain object inherits from
    [Object.prototype].  Reading one of them from an object literal that
    does not define it gives a function (for [__proto__], the prototype
    itself): something that is neither [null] nor [undefined]. *)
Definition object_prototype : list string :=
  ["constructor"; "hasOwnProperty"; "isPrototypeOf"; "propertyIsEnumerable";
   "toLocaleString"; "toString"; "valueOf"; "__proto__";
   "__defineGetter__"; "__defineSetter__"; "__lookupGetter__"; "__lookupSetter__"].

Definition inherits (key : string) : bool :=
  existsb (String.eqb key) object_prototype.

(** What [table[key]] is, for an object literal whose own values are
    strings. *)
Inductive entry : Type :=
| Own (s : string)
| Inherited
| Missing.

Fixpoint own (key : string) (table : list (string * string)) : option string :=
  match table with
  | [] => None
  | (k, s) :: rest => if k =? key then Some s else own key rest
  end.

Definition entry_of (table : list (string * string)) (key : string) : entry :=
  match own key table with
  | Some s => Own s
  | None => if inherits key then Inherited else Missing
  end.

End JSObjects.

(* ===================================================================== *)
(** * The network as the tools see it                                     *)
(* ===================================================================== *)

Module Network.

(** An environment together with the platform's [fetch] for the requests
    the tools make themselves.  [net_fetch url body] is
    [fetch(url)] when [body] is [None] and
    [fetch(url, { method: "POST", headers, body: JSON.stringify(b) })]
    when it is [Some b]; the headers are the same constant on every
    call. *)
Record Net : Type := mkNet {
  base : Environment;
  net_fetch : string -> option value -> World base
              -> completion Response * World base;
  (** [encodeURIComponent] *)
  encodeURIComponent : string -> string;
  (** what a template literal prints for a member of [Object.prototype] *)
  inherited_text : string -> string
}.

End Network.

Import Network.

(* ===================================================================== *)
(** * tools.ts: the tools that call out                                   *)
(* ===================================================================== *)

Module RemoteTools.

Import JSObjects.

(** tools.ts:193 *)
Definition gemini_url (apiKey : string) : string :=
  "https://generativelanguage.googleapis.com/v1beta/models/gemini-3-pro-preview:generateContent?key="
  ++ apiKey.

(** [{ contents: [{ parts: [{ text: prompt }] }] }], tools.ts:197 *)
Definition prompt_body (prompt : string) : value :=
  VObj [("contents", VArr [VObj [("parts", VArr [VObj [("text", VStr prompt)]])]])].

(** tools.ts:83-87 *)
Definition styleMap : list (string * string) :=
  [("brief", "2-3문장으로 요약해주세요");
   ("detailed", "핵심 포인트를 모두 포함하여 상세히 요약해주세요");
   ("bullet_points", "글머리 기호로 요약해주세요")].

(** tools.ts:29-36; the numeric keys of the literal are the property
    names ["0"], ["1"], ... *)
Definition weatherCodes : list (string * string) :=
  [("0", "맑음"); ("1", "대체로 맑음"); ("2", "구름 조금"); ("3", "흐림");
   ("45", "안개"); ("48", "서리 안개"); ("51", "약한 이슬비"); ("53", "이슬비");
   ("55", "강한 이슬비");
   ("61", "약한 비"); ("63", "비"); ("65", "강한 비");
   ("71", "약한 눈"); ("73", "눈"); ("75", "강한 눈");
   ("80", "약한 소나기"); ("81", "소나기"); ("82", "강한 소나기");
   ("95", "뇌우"); ("96", "우박 뇌우"); ("99", "강한 우박 뇌우")].

Section WithNet.

Variable N : Net.

Local Abbreviation E := (base N).
Local Abbreviation str := (ToString (number_to_string (base N))).

(** [data.candidates?.[0]?.content?.parts?.[0]?.text], tools.ts:202 and
    index.ts:88, 205, 242 *)
Definition first_text (data : value) : completion value :=
  candidates <~ get data "candidates" ;;
  candidate <~ first_opt candidates ;;
  content <~ get_opt candidate "content" ;;
  parts <~ get_opt content "parts" ;;
  part <~ first_opt parts ;;
  get_opt part "text".

(** [v ?? fallback] *)
Definition or_default (v : value) (fallback : string) : value :=
  if nullish v then VStr fallback else v.

(** tools.ts:191-203.  Declared to return a string; what it returns is
    whatever the service put in the [text] field. *)
Definition callGemini (prompt : string) (apiKey : string) : M E value :=
  res <- net_fetch N (gemini_url apiKey) (Some (prompt_body prompt)) ;;
  data <- lift (json res) ;;
  if negb (ok res) then
    ret (VStr ("Gemini API 오류: " ++ JSON_stringify E data))
  else
    text <- lift (first_text data) ;;
    ret (or_default text "응답 없음").

(** tools.ts:70-71 *)
Definition translate_prompt (text target_language source_language : value) : string :=
  let fromLang :=
    if truthy source_language then str source_language ++ "에서 " else "" in
  "다음 텍스트를 " ++ fromLang ++ str target_language
  ++ "로 번역해주세요. 번역된 텍스트만 반환하세요:" ++ Chat.LF ++ Chat.LF ++ str text.

(** tools.ts:65-73 *)
Definition executeTranslate (args : value) (apiKey : string) : M E value :=
  text <- lift (get args "text") ;;
  target_language <- lift (get args "target_language") ;;
  source_language <- lift (get args "source_language") ;;
  callGemini (translate_prompt text target_language source_language) apiKey.

(** tools.ts:88-90.  The style chosen, or ["brief"] when it is [null] or
    [undefined], is used as a property name of [styleMap]. *)
Definition summarize_prompt (text style language : value) : string :=
  let key := str (if nullish style then VStr "brief" else style) in
  let styleInstruction :=
    match entry_of styleMap key with
    | Own s => s
    | Inherited => inherited_text N key
    | Missing => "undefined"
    end in
  let langInstruction :=
    if truthy language then " " ++ str language ++ "로 답변해주세요." else "" in
  styleInstruction ++ "." ++ langInstruction ++ Chat.LF ++ Chat.LF ++ str text.

(** tools.ts:78-92 *)
Definition executeSummarize (args : value) (apiKey : string) : M E value :=
  text <- lift (get args "text") ;;
  style <- lift (get args "style") ;;
  language <- lift (get args "language") ;;
  callGemini (summarize_prompt text style language) apiKey.

(** tools.ts:18 *)
Definition geocoding_url (city : value) : string :=
  "https://geocoding-api.open-meteo.com/v1/search?name="
  ++ encodeURIComponent N (str city) ++ "&count=1".

(** tools.ts:25 *)
Definition forecast_url (latitude longitude : value) : string :=
  "https://api.open-meteo.com/v1/forecast?latitude=" ++ str latitude
  ++ "&longitude=" ++ str longitude
  ++ "&current=temperature_2m,relative_humidity_2m,wind_speed_10m,weather_code".

(** tools.ts:37 *)
Definition condition_text (weather_code : value) : string :=
  match entry_of weatherCodes (str weather_code) with
  | Own s => s
  | Inherited => inherited_text N (str weather_code)
  | Missing => "코드 " ++ str weather_code
  end.

(** tools.ts:15-39 *)
Definition executeWeather (args : value) : M E string :=
  city <- lift (get args "city") ;;
  geoRes <- net_fetch N (geocoding_url city) None ;;
  geoData <- lift (json geoRes) ;;
  results <- lift (get geoData "results") ;;
  if negb (has_length results) then
    ret ("도시를 찾을 수 없습니다: " ++ str city)
  else
    place <- lift (first_opt results) ;;
    latitude <- lift (get place "latitude") ;;
    longitude <- lift (get place "longitude") ;;
    name <- lift (get place "name") ;;
    country <- lift (get place "country") ;;
    weatherRes <- net_fetch N (forecast_url latitude longitude) None ;;
    weatherData <- lift (json weatherRes) ;;
    current <- lift (get weatherData "current") ;;
    weather_code <- lift (get current "weather_code") ;;
    temperature_2m <- lift (get current "temperature_2m") ;;
    relative_humidity_2m <- lift (get current "relative_humidity_2m") ;;
    wind_speed_10m <- lift (get current "wind_speed_10m") ;;
    ret ("📍 " ++ str name ++ ", " ++ str country ++ Chat.LF
         ++ "🌡️ 기온: " ++ str temperature_2m ++ "°C" ++ Chat.LF
         ++ "💧 습도: " ++ str relative_humidity_2m ++ "%" ++ Chat.LF
         ++ "💨 풍속: " ++ str wind_speed_10m ++ " km/h" ++ Chat.LF
         ++ "🌤️ 상태: " ++ condition_text weather_code).

End WithNet.

End RemoteTools.

(* ===================================================================== *)
(** * index.ts: the tools of the MCP server                               *)
(* ===================================================================== *)

Module Mcp.

Import JSObjects.

(** [{ content: [{ type: "text", text }] }], what every tool returns. *)
Definition text_content (text : value) : value :=
  VObj [("content", VArr [VObj [("type", VStr "text"); ("text", text)]])].

(** index.ts:46 [z.enum(["add", "subtract", "multiply", "divide"])].  The
    server validates a call against the tool's schema before the handler
    runs, so a handler sees arguments of the declared types. *)
Inductive operation : Type := add | subtract | multiply | divide.

Definition operation_name (op : operation) : string :=
  match op with
  | add => "add"
  | subtract => "subtract"
  | multiply => "multiply"
  | divide => "divide"
  end.

(** index.ts:218 *)
Inductive style : Type := brief | detailed | bullet_points.

Definition style_name (s : style) : string :=
  match s with
  | brief => "brief"
  | detailed => "detailed"
  | bullet_points => "bullet_points"
  end.

(** index.ts:224-228 *)
Definition styleMap : list (string * string) :=
  [("brief", "Summarize in 2-3 sentences");
   ("detailed", "Provide a detailed summary covering all key points");
   ("bullet_points", "Summarize as bullet points")].

(** [s ? yes : no] for an optional string: absent and empty are falsy. *)
Definition given (s : option string) : bool :=
  match s with
  | None => false
  | Some x => negb (x =? "")
  end.

Definition the (s : option string) : string :=
  match s with
  | None => "undefined"
  | Some x => x
  end.

Section WithNet.

Variable N : Net.

Local Abbreviation E := (base N).

(** [String(x)] for a number *)
Local Abbreviation String_ := (number_to_string (base N)).

(** index.ts:33-40, the tool ["add"] *)
Definition add_tool (a b : float) : value :=
  text_content (VStr (String_ (a + b)%float)).

(** index.ts:42-62, the tool ["calculate"] *)
Definition calculate (op : operation) (a b : float) : value :=
  match op with
  | add => text_content (VStr (String_ (a + b)%float))
  | subtract => text_content (VStr (String_ (a - b)%float))
  | multiply => text_content (VStr (String_ (a * b)%float))
  | divide =>
      if PrimFloat.eqb b 0%float then text_content (VStr "Error: Division by zero")
      else text_content (VStr (String_ (a / b)%float))
  end.

(** index.ts:68-94, the tool ["ask_gemini"] *)
Definition ask_gemini (env : Worker.Env) (prompt : string) : M E value :=
  let apiKey := Worker.GEMINI_API_KEY env in
  if Worker.key_missing apiKey then
    ret (text_content (VStr "Error: GEMINI_API_KEY is not configured"))
  else
    try_catch
      (res <- net_fetch N (RemoteTools.gemini_url (the apiKey))
                (Some (RemoteTools.prompt_body prompt)) ;;
       data <- lift (json res) ;;
       if negb (ok res) then
         ret (text_content (VStr ("Gemini API error: " ++ JSON_stringify E data)))
       else
         text <- lift (RemoteTools.first_text data) ;;
         ret (text_content (RemoteTools.or_default text "No response from Gemini")))
      (fun err => ret (text_content (VStr ("Error calling Gemini: " ++ err_message err)))).

(** index.ts:193-194 *)
Definition translate_prompt (text target_language : string)
    (source_language : option string) : string :=
  let fromLang :=
    if given source_language then "from " ++ the source_language ++ " " else "" in
  "Translate the following text " ++ fromLang ++ "to " ++ target_language
  ++ ". Return ONLY the translated text, no explanations:" ++ Chat.LF ++ Chat.LF ++ text.

(** index.ts:182-211, the tool ["translate"] *)
Definition translate (env : Worker.Env) (text target_language : string)
    (source_language : option string) : M E value :=
  let apiKey := Worker.GEMINI_API_KEY env in
  if Worker.key_missing apiKey then
    ret (text_content (VStr "Error: GEMINI_API_KEY not configured"))
  else
    try_catch
      (res <- net_fetch N (RemoteTools.gemini_url (the apiKey))
                (Some (RemoteTools.prompt_body
                         (translate_prompt text target_language source_language))) ;;
       data <- lift (json res) ;;
       result <- lift (RemoteTools.first_text data) ;;
       ret (text_content (RemoteTools.or_default result "Translation failed")))
      (fun err => ret (text_content (VStr ("Translation error: " ++ err_message err)))).

(** index.ts:229-231 *)
Definition summarize_prompt (text : string) (s : option style)
    (language : option string) : string :=
  let key := match s with Some x => style_name x | None => "brief" end in
  let styleInstruction :=
    match own key styleMap with
    | Some instruction => instruction
    | None => "undefined"
    end in
  let langInstruction :=
    if given language then " Answer in " ++ the language ++ "." else "" in
  styleInstruction ++ "." ++ langInstruction ++ Chat.LF ++ Chat.LF ++ text.

(** index.ts:213-248, the tool ["summarize"] *)
Definition summarize (env : Worker.Env) (text : string) (s : option style)
    (language : option string) : M E value :=
  let apiKey := Worker.GEMINI_API_KEY env in
  if Worker.key_missing apiKey then
    ret (text_content (VStr "Error: GEMINI_API_KEY not configured"))
  else
    try_catch
      (res <- net_fetch N (RemoteTools.gemini_url (the apiKey))
                (Some (RemoteTools.prompt_body (summarize_prompt text s language))) ;;
       data <- lift (json res) ;;
       result <- lift (RemoteTools.first_text data) ;;
       ret (text_content (RemoteTools.or_default result "Summarization failed")))
      (fun err => ret (text_content (VStr ("Summarize error: " ++ err_message err)))).

End WithNet.

End Mcp.

(* ===================================================================== *)
(** * A scripted network, for worked examples                             *)
(* ===================================================================== *)

Module Lab.

(** The network answers from [pending], then rejects; [asked] records
    every request, in order. *)
Record world : Type := mkWorld {
  pending : list (completion Response);
  asked : list (string * option value)
}.

Definition serve (url : string) (body : option value) (w : world)
  : completion Response * world :=
  match pending w with
  | r :: rest => (r, mkWorld rest (asked w ++ [(url, body)]))
  | [] => (Scripted.offline, mkWorld [] (asked w ++ [(url, body)]))
  end.

Definition silent {A : Type} (a : A) (w : world) : completion A * world :=
  (Normal a, w).

Definition environment : Environment :=
  mkEnvironment world
    Scripted.show_number
    (fun _ _ _ => VNum PrimFloat.nan)
    (fun _ => "{}")
    (fun url _ => serve url None)
    (fun _ => silent "")
    (fun _ => silent "")
    (fun _ _ => silent "")
    (fun _ _ => silent "")
    (fun _ => silent "")
    (fun _ => silent "")
    (fun _ => silent "").

Definition net : Net :=
  mkNet environment serve (fun s => s) (fun name => "function " ++ name ++ "() { [native code] }").

Definition start (script : list (completion Response)) : world :=
  mkWorld script [].

(** A response body whose first candidate's first part is the given
    text. *)
Definition answer (text : value) : completion Response :=
  Scripted.ok_reply (Scripted.candidate [VObj [("text", text)]]).

End Lab.

(* ===================================================================== *)
(** * Facts about the JavaScript fragment                                 *)
(* ===================================================================== *)

Module JSFacts.

(** The model on a few values whose treatment in JavaScript is easy to
    get wrong. *)
Example negative_zero_is_falsy_and_equals_zero :
  truthy (VNum (-0)%float) = false /\ seq_zero (VNum (-0)%float) = true.
Proof. split; reflexivity. Qed.

Example nan_is_falsy_and_equals_nothing :
  truthy (VNum PrimFloat.nan) = false /\ seq_zero (VNum PrimFloat.nan) = false.
Proof. split; reflexivity. Qed.

Example empty_containers_are_truthy :
  truthy (VArr []) = true /\ truthy (VObj []) = true /\ truthy (VStr "") = false.
Proof. repeat split; reflexivity. Qed.

Example code_points_of_mixed_text :
  code_points "한a글" = ["한"; "a"; "글"].
Proof. reflexivity. Qed.

Example segments_of_a_string_cannot_be_searched :
  has_length (VStr "text") = true /\
  exists e, find (VStr "text") (fun p => get p "functionCall") = Throw e.
Proof. split; [reflexivity | eexists; reflexivity]. Qed.

Lemma get_opt_normal v key : exists r, get_opt v key = Normal r.
Proof. destruct v; cbn; eauto. Qed.

Lemma first_opt_normal v : exists r, first_opt v = Normal r.
Proof. destruct v; cbn; eauto. Qed.

Lemma get_normal v key : nullish v = false -> exists r, get v key = Normal r.
Proof. destruct v; cbn; intros H; try discriminate; eauto. Qed.

(** A property read that came back with something was not cut short by
    the optional chain. *)
Lemma get_opt_defined v key r :
  get_opt v key = Normal r -> nullish r = false ->
  nullish v = false /\ get v key = Normal r.
Proof.
  destruct v; cbn; intros H Hr; try (inversion H; subst; discriminate);
    split; auto.
Qed.

Lemma has_length_defined v : has_length v = true -> nullish v = false.
Proof. destruct v; simpl; intros H; auto; discriminate. Qed.

Lemma truthy_defined v : truthy v = true -> nullish v = false.
Proof. destruct v; simpl; intros H; auto; discriminate. Qed.

(** [find] hands back one of the elements, and that element passed the
    test. *)
Lemma array_find_found test elems x :
  array_find test elems = Normal x -> truthy x = true ->
  In x elems /\ exists t, test x = Normal t /\ truthy t = true.
Proof.
  induction elems as [|y rest IH]; simpl; intros H Hx.
  - inversion H; subst. discriminate.
  - destruct (test y) as [t|e] eqn:Ht; try discriminate.
    destruct (truthy t) eqn:Htt.
    + inversion H; subst. split; [left; reflexivity | eauto].
    + destruct (IH H Hx) as [Hin Hex]. split; [right; exact Hin | exact Hex].
Qed.

Lemma find_found v test x :
  find v test = Normal x -> truthy x = true ->
  exists t, test x = Normal t /\ truthy t = true.
Proof.
  destruct v; simpl; intros H Hx; try discriminate.
  eapply array_find_found; eauto.
Qed.

(** On elements that can all be read, [find] does not throw. *)
Lemma array_find_normal key elems :
  forallb (fun p => negb (nullish p)) elems = true ->
  exists r, array_find (fun p => get p key) elems = Normal r.
Proof.
  induction elems as [|y rest IH]; simpl; intros H; eauto.
  apply andb_prop in H. destruct H as [Hy Hrest].
  destruct (get_normal y key) as [t Ht].
  { destruct (nullish y); [discriminate | reflexivity]. }
  rewrite Ht. destruct (truthy t); eauto.
Qed.

(** The first element that passes the test is the one found, whatever
    comes after it. *)
Lemma array_find_first test before x after t :
  Forall (fun p => exists u, test p = Normal u /\ truthy u = false) before ->
  test x = Normal t -> truthy t = true ->
  array_find test (before ++ x :: after) = Normal x.
Proof.
  intros Hb Hx Ht. induction Hb as [|p before [u [Hu Hf]] _ IH]; simpl.
  - rewrite Hx, Ht. reflexivity.
  - rewrite Hu, Hf. exact IH.
Qed.

End JSFacts.

(* ===================================================================== *)
(** * A pass of the loop is the gateway followed by the state machine     *)
(* ===================================================================== *)

Module Refinement.

Import Chat Gateway JSFacts.

Section WithEnvironment.

Variable E : Environment.

(** Segments with a length were reached through values that exist, so
    reading them again without the optional chain (chat.ts:236) gives
    the same segments. *)
Lemma segments_again geminiData candidates candidate content0 parts0 :
  get geminiData "candidates" = Normal candidates ->
  first_opt candidates = Normal candidate ->
  get_opt candidate "content" = Normal content0 ->
  get_opt content0 "parts" = Normal parts0 ->
  has_length parts0 = true ->
  get candidate "content" = Normal content0 /\ get content0 "parts" = Normal parts0.
Proof.
  intros _ _ Hc Hp Hl.
  destruct (get_opt_defined _ _ _ Hp (has_length_defined _ Hl)) as [Hc0 Hparts].
  destruct (get_opt_defined _ _ _ Hc Hc0) as [_ Hcontent].
  split; assumption.
Qed.

(** chat.ts:210-269 against the specification's gateway and step. *)
Lemma iteration_advance apiKey st w :
  iteration E apiKey st w =
  (geminiRes <- http_post E (endpoint apiKey) (contents st) ;;
   o <- lift (complete E geminiRes) ;;
   advance E apiKey st o) w.
Proof.
  unfold iteration, bind, lift.
  destruct (http_post E (endpoint apiKey) (contents st) w) as [[geminiRes|e] w1];
    [|reflexivity].
  unfold complete.
  destruct (json geminiRes) as [geminiData|e]; [|reflexivity].
  simpl cbind.
  destruct (ok geminiRes); simpl negb; cbv iota.
  - unfold segments.
    destruct (get geminiData "candidates") as [candidates|e] eqn:H1; [|reflexivity].
    simpl cbind.
    destruct (first_opt_normal candidates) as [candidate H2]. rewrite H2.
    simpl cbind.
    destruct (get_opt_normal candidate "content") as [content0 H3]. rewrite H3.
    simpl cbind.
    destruct (get_opt_normal content0 "parts") as [parts0 H4]. rewrite H4.
    simpl cbind.
    destruct (has_length parts0) eqn:Hl; simpl negb; cbv iota; [|reflexivity].
    destruct (segments_again _ _ _ _ _ H1 H2 H3 H4 Hl) as [H5 H6].
    rewrite H5, H6. unfold requested.
    destruct (find parts0 (fun p => get p "functionCall")) as [call|e];
      [|reflexivity].
    simpl cbind.
    destruct (truthy call).
    + destruct (get call "functionCall") as [functionCall|e]; [|reflexivity].
      simpl cbind.
      destruct (get functionCall "name") as [name|e]; [|reflexivity].
      simpl cbind.
      destruct (get functionCall "args") as [args|e]; reflexivity.
    + destruct (find parts0 (fun p => get p "text")) as [textPart|e];
        [|reflexivity].
      simpl cbind.
      destruct (truthy textPart); [|reflexivity].
      destruct (get textPart "text") as [text|e]; reflexivity.
  - destruct (get geminiData "error") as [error|e]; [|reflexivity].
    simpl cbind.
    destruct (get_opt error "message") as [message|e]; reflexivity.
Qed.

End WithEnvironment.

End Refinement.

(* ===================================================================== *)
(** * tools.ts: the calculator's guards                                   *)
(* ===================================================================== *)

Module ToolsSpec.

Import Tools Gateway JSFacts.

Lemma seq_str_other v lit : v <> VStr lit -> seq_str v lit = false.
Proof.
  destruct v as [| | | |s| |]; simpl; intros H; try reflexivity.
  destruct (String.eqb_spec s lit) as [->|]; [congruence | reflexivity].
Qed.

Lemma seq_str_same lit : seq_str (VStr lit) lit = true.
Proof. simpl. apply String.eqb_refl. Qed.



(** With two numbers and a known operation the answer shows the IEEE
    result; a non-zero divisor divides. *)
Example executeCalculate_divides :
  executeCalculate Scripted.env
    (VObj [("operation", VStr "divide"); ("a", VNum 12); ("b", VNum 4)])
  = Normal "12 divide 4 = 3".
Proof. reflexivity. Qed.

(** A call without an argument map throws; [executeTool] is where that is
    caught. *)
Example executeCalculate_without_arguments :
  exists e, executeCalculate Scripted.env VUndefined = Throw e.
Proof. eexists. reflexivity. Qed.

End ToolsSpec.

(* ===================================================================== *)
(** * chat.ts: the dispatcher                                             *)
(* ===================================================================== *)

Module Dispatcher.

Import Chat Gateway JSFacts.

Section WithEnvironment.

Variable E : Environment.

Local Abbreviation str := (ToString (number_to_string E)).

(** [executeTool] is a table lookup, a guarded call, and two fixed ways
    of putting a failure into words. *)
Lemma executeTool_resolve name args apiKey w :
  executeTool E name args apiKey w =
  match resolve E name with
  | None => (Normal (unknown_text E name), w)
  | Some execute =>
      match execute args apiKey w with
      | (Normal result, w') => (Normal result, w')
      | (Throw err, w') => (Normal (failure_text E name err), w')
      end
  end.
Proof.
  unfold executeTool, resolve, try_catch, failure_text, unknown_text.
  repeat match goal with
         | |- context [if seq_str name ?lit then _ else _] =>
             destruct (seq_str name lit)
         end;
    try reflexivity;
    match goal with
    | |- context [match ?c with pair _ _ => _ end] =>
        destruct c as [[?|?] ?]; reflexivity
    end.
Qed.

(** The dispatcher never throws. *)
Lemma executeTool_normal name args apiKey w :
  exists result w', executeTool E name args apiKey w = (Normal result, w').
Proof.
  rewrite executeTool_resolve.
  destruct (resolve E name) as [execute|]; [|eauto].
  destruct (execute args apiKey w) as [[result|err] w']; eauto.
Qed.

(** Every declared tool has an executor, and only the declared ones
    do. *)
Lemma declared_tools_resolve (name : string) :
  In name functionDeclarations <-> resolve E (VStr name) <> None.
Proof.
  split.
  - intros H. simpl in H.
    repeat (destruct H as [<-|H]; [discriminate|]). contradiction.
  - unfold resolve, seq_str, functionDeclarations.
    repeat match goal with
           | |- context [if name =? ?lit then _ else _] =>
               destruct (String.eqb_spec name lit) as [->|_];
                 [intros _; simpl; tauto|]
           end.
    intros H. elim H. reflexivity.
Qed.

End WithEnvironment.

End Dispatcher.

(* ===================================================================== *)
(** * chat.ts: the loop                                                   *)
(* ===================================================================== *)

Module Loop.

Import Chat Gateway JSFacts Refinement Dispatcher.

Section WithEnvironment.

Variable E : Environment.

(** A pass that completes went through a response, an outcome read from
    it, and the transition for that outcome. *)
Lemma pass_cases apiKey st w p w' :
  iteration E apiKey st w = (Normal p, w') ->
  exists geminiRes w1 o,
    http_post E (endpoint apiKey) (contents st) w = (Normal geminiRes, w1) /\
    complete E geminiRes = Normal o /\
    advance E apiKey st o w1 = (Normal p, w').
Proof.
  rewrite iteration_advance. unfold bind, lift.
  destruct (http_post E (endpoint apiKey) (contents st) w) as [[geminiRes|e] w1];
    [|discriminate].
  destruct (complete E geminiRes) as [o|e] eqn:Ho; [|discriminate].
  intros H. exists geminiRes, w1, o. auto.
Qed.

(** A transition either stops with the tools used so far, leaving the
    world alone, or runs the one tool asked for and continues. *)
Lemma advance_cases apiKey st o w :
  (exists reply,
     advance E apiKey st o w
     = (Normal (Return (mkChatResponse reply (toolsUsed st))), w)
     /\ forall name args raw, o <> ToolCallRequested name args raw)
  \/
  (exists name args raw result w',
     o = ToolCallRequested name args raw /\
     executeTool E name args apiKey w = (Normal result, w') /\
     advance E apiKey st o w
     = (Normal (Continue (extend st (mkRound raw name result))), w')).
Proof.
  destruct o as [message| |name args raw|text|];
    try (left; eexists; split; [reflexivity | discriminate]).
  right. destruct (executeTool_normal E name args apiKey w) as [result [w' Hrun]].
  exists name, args, raw, result, w'. split; [reflexivity|]. split; [exact Hrun|].
  simpl. unfold bind. rewrite Hrun. reflexivity.
Qed.

(** What a tool-call outcome says about the response it was read from. *)
Lemma complete_tool_call geminiRes name args raw :
  complete E geminiRes = Normal (ToolCallRequested name args raw) ->
  exists geminiData,
    ok geminiRes = true /\
    json geminiRes = Normal geminiData /\
    segments geminiData = Normal raw /\
    requested_name raw = Normal name.
Proof.
  unfold complete.
  destruct (json geminiRes) as [geminiData|e] eqn:Hjson; [|discriminate].
  simpl cbind. destruct (ok geminiRes) eqn:Hok; simpl negb; cbv iota.
  - destruct (segments geminiData) as [parts|e] eqn:Hseg; [|discriminate].
    simpl cbind. destruct (has_length parts); simpl negb; cbv iota;
      [|discriminate].
    destruct (requested parts) as [call|e] eqn:Hcall; [|discriminate].
    simpl cbind. destruct (truthy call).
    + destruct (get call "functionCall") as [functionCall|e] eqn:Hfc;
        [|discriminate].
      simpl cbind.
      destruct (get functionCall "name") as [name'|e] eqn:Hname; [|discriminate].
      simpl cbind.
      destruct (get functionCall "args") as [args'|e]; [|discriminate].
      simpl cbind. intros H. inversion H; subst.
      exists geminiData. repeat split; try assumption.
      unfold requested_name. rewrite Hcall. simpl cbind. rewrite Hfc. exact Hname.
    + destruct (find parts (fun p => get p "text")) as [textPart|e];
        [|discriminate].
      simpl cbind. destruct (truthy textPart); [|discriminate].
      destruct (get textPart "text"); discriminate.
  - destruct (get geminiData "error") as [error|e]; [|discriminate].
    simpl cbind. destruct (get_opt error "message"); discriminate.
Qed.

(** A pass that continues added exactly one round. *)
Lemma pass_continue apiKey st w st' w' :
  iteration E apiKey st w = (Normal (Continue st'), w') ->
  exists geminiRes w1 geminiData x,
    http_post E (endpoint apiKey) (contents st) w = (Normal geminiRes, w1) /\
    json geminiRes = Normal geminiData /\
    segments geminiData = Normal (rawModelTurn x) /\
    answered x /\
    st' = extend st x.
Proof.
  intros H. destruct (pass_cases _ _ _ _ _ H) as [geminiRes [w1 [o [Hpost [Ho Hadv]]]]].
  destruct (advance_cases apiKey st o w1)
    as [[reply [Hstop _]] | [name [args [raw [result [w2 [-> [_ Hgo]]]]]]]].
  - rewrite Hstop in Hadv. discriminate.
  - rewrite Hgo in Hadv. inversion Hadv; subst.
    destruct (complete_tool_call _ _ _ _ Ho) as [geminiData [_ [Hjson [Hseg Hname]]]].
    exists geminiRes, w1, geminiData, (mkRound raw name result).
    repeat split; assumption.
Qed.

(** A pass that returns hands back the tools used so far. *)
Lemma pass_return apiKey st w r w' :
  iteration E apiKey st w = (Normal (Return r), w') ->
  tools_used r = toolsUsed st.
Proof.
  intros H. destruct (pass_cases _ _ _ _ _ H) as [geminiRes [w1 [o [_ [_ Hadv]]]]].
  destruct (advance_cases apiKey st o w1)
    as [[reply [Hstop _]] | [name [args [raw [result [w2 [_ [_ Hgo]]]]]]]].
  - rewrite Hstop in Hadv. inversion Hadv; subst. reflexivity.
  - rewrite Hgo in Hadv. discriminate.
Qed.

Lemma tool_loop_step apiKey remaining st w :
  tool_loop E apiKey (S remaining) st w =
  match iteration E apiKey st w with
  | (Normal (Return r), w') => (Normal (st, r), w')
  | (Normal (Continue st'), w') => tool_loop E apiKey remaining st' w'
  | (Throw e, w') => (Throw e, w')
  end.
Proof.
  simpl. unfold bind.
  destruct (iteration E apiKey st w) as [[[st'|r]|e] w']; reflexivity.
Qed.

(** The invariant of the loop: whenever it returns, the transcript is the
    one it started from followed by whole rounds, one per tool used, at
    most as many as there were passes. *)
Lemma tool_loop_rounds apiKey remaining : forall st w st' r w',
  tool_loop E apiKey remaining st w = (Normal (st', r), w') ->
  exists rounds,
    List.length rounds <= remaining /\
    contents st' = (contents st ++ flat_map exchange rounds)%list /\
    toolsUsed st' = (toolsUsed st ++ map toolName rounds)%list /\
    tools_used r = toolsUsed st' /\
    Forall answered rounds.
Proof.
  induction remaining as [|remaining IH]; intros st w st' r w' H.
  - simpl in H. inversion H; subst. exists []. simpl.
    rewrite !app_nil_r. repeat split; auto.
  - rewrite tool_loop_step in H.
    destruct (iteration E apiKey st w) as [[[st1|r1]|e] w1] eqn:Hpass;
      [| |discriminate].
    + destruct (pass_continue _ _ _ _ _ Hpass)
        as [geminiRes [w0 [geminiData [x [_ [_ [_ [Hx ->]]]]]]]].
      destruct (IH _ _ _ _ _ H) as [rounds [Hlen [Hc [Ht [Hr Hall]]]]].
      exists (x :: rounds). simpl in *.
      rewrite <- !app_assoc in Hc. rewrite <- app_assoc in Ht. simpl in Hc, Ht.
      repeat split; auto. lia.
    + inversion H; subst. exists []. simpl. rewrite !app_nil_r.
      repeat split; auto. { lia. } eapply pass_return; eauto.
Qed.

(** When every response asks for a tool, every pass is spent on one. *)
Lemma tool_loop_exhausts apiKey remaining :
  always_requests_tool E ->
  forall st w, exists st' w',
    tool_loop E apiKey remaining st w
    = (Normal (st', mkChatResponse budget_reply (toolsUsed st')), w') /\
    List.length (toolsUsed st') = List.length (toolsUsed st) + remaining.
Proof.
  intros Hall. induction remaining as [|remaining IH]; intros st w.
  - exists st, w. split; [reflexivity | lia].
  - destruct (Hall (endpoint apiKey) (contents st) w)
      as [geminiRes [w1 [name [args [raw [Hpost Ho]]]]]].
    destruct (advance_cases apiKey st (ToolCallRequested name args raw) w1)
      as [[reply [_ Hno]] | [n [a [r [result [w2 [Heq [_ Hgo]]]]]]]].
    { exfalso. eapply Hno. reflexivity. }
    inversion Heq; subst n a r.
    destruct (IH (extend st (mkRound raw name result)) w2) as [st' [w' [Hrun Hlen]]].
    exists st', w'. split.
    + rewrite tool_loop_step, iteration_advance. unfold bind, lift.
      rewrite Hpost, Ho, Hgo. exact Hrun.
    + rewrite Hlen. simpl. rewrite length_app. simpl. lia.
Qed.

End WithEnvironment.

End Loop.

(* ===================================================================== *)
(** * What the completion service gets to see                             *)
(* ===================================================================== *)

Module Observed.

Import Chat Gateway JSFacts Refinement Dispatcher Loop.

Section WithEnvironment.

Variable E : Environment.

Lemma executeTool_keeps_log name args apiKey w log :
  snd (snd (executeTool (logged E) name args apiKey (w, log))) = log.
Proof.
  rewrite executeTool_resolve. unfold resolve.
  repeat match goal with
         | |- context [if seq_str name ?lit then _ else _] =>
             destruct (seq_str name lit)
         end;
    try reflexivity;
    cbn [logged executeWeather executeExchangeRate executeTranslate
         executeSummarize executeWebSearch executeFetchUrl executeDatetime];
    unfold unobserved, lift; cbn [fst snd];
    match goal with
    | |- context [let (_, _) := ?c in _] => destruct c as [[?|?] ?]; reflexivity
    | |- _ => idtac
    end.
  destruct (Tools.executeCalculate (logged E) args); reflexivity.
Qed.

(** A pass posts the transcript as it stands, once, whatever else it
    does. *)
Lemma pass_posts_once apiKey st w log :
  snd (snd (iteration (logged E) apiKey st (w, log))) = (log ++ [contents st])%list.
Proof.
  rewrite iteration_advance. unfold bind, lift.
  cbn [logged http_post fst snd].
  destruct (http_post E (endpoint apiKey) (contents st) w) as [[geminiRes|e] w1];
    [|reflexivity].
  destruct (complete (logged E) geminiRes) as [o|e]; [|reflexivity].
  destruct o as [message| |name args raw|text|]; try reflexivity.
  cbn [advance]. unfold bind, ret.
  pose proof (executeTool_keeps_log name args apiKey w1 (log ++ [contents st])) as Hlog.
  destruct (executeTool (logged E) name args apiKey (w1, (log ++ [contents st])%list))
    as [[result|e] [w2 log2]]; exact Hlog.
Qed.

(** Every transcript posted in the course of the loop is the one the
    loop started from followed by whole rounds. *)
Lemma tool_loop_posts apiKey remaining : forall st w log st' r w' log',
  tool_loop (logged E) apiKey remaining st (w, log) = (Normal (st', r), (w', log')) ->
  exists rounds posted,
    contents st' = (contents st ++ flat_map exchange rounds)%list /\
    Forall answered rounds /\
    log' = (log ++ posted)%list /\
    Forall (fun transcript =>
              exists k, transcript
                        = (contents st ++ flat_map exchange (firstn k rounds))%list)
           posted.
Proof.
  induction remaining as [|remaining IH]; intros st w log st' r w' log' H.
  - simpl in H. inversion H; subst. exists [], [].
    simpl. rewrite !app_nil_r. repeat split; auto.
  - rewrite tool_loop_step in H.
    pose proof (pass_posts_once apiKey st w log) as Hposted.
    destruct (iteration (logged E) apiKey st (w, log))
      as [[[st1|r1]|e] [w1 log1]] eqn:Hpass; [| |discriminate];
      cbn [snd] in Hposted; subst log1.
    + destruct (pass_continue _ _ _ _ _ _ Hpass)
        as [geminiRes [w0 [geminiData [x [_ [_ [_ [Hx ->]]]]]]]].
      destruct (IH _ _ _ _ _ _ _ H) as [rounds [posted [Hc [Hall [Hlog Hsent]]]]].
      exists (x :: rounds), (contents st :: posted).
      cbn [extend contents] in Hc, Hsent. rewrite <- app_assoc in Hc.
      repeat split.
      * exact Hc.
      * constructor; assumption.
      * rewrite Hlog, <- app_assoc. reflexivity.
      * constructor.
        -- exists 0. simpl. rewrite app_nil_r. reflexivity.
        -- eapply Forall_impl; [|exact Hsent].
           intros transcript [k ->]. exists (S k).
           simpl. rewrite <- !app_assoc. reflexivity.
    + inversion H; subst. exists [], [contents st']. simpl.
      rewrite app_nil_r. repeat split; auto.
      constructor; [|constructor]. exists 0. rewrite app_nil_r. reflexivity.
Qed.

(** Observation changes nothing: the observed run is the plain run, with
    a log beside it. *)
Lemma executeTool_observed name args apiKey w log :
  executeTool (logged E) name args apiKey (w, log)
  = (fst (executeTool E name args apiKey w),
     (snd (executeTool E name args apiKey w), log)).
Proof.
  rewrite !executeTool_resolve. unfold resolve.
  repeat match goal with
         | |- context [if seq_str name ?lit then _ else _] =>
             destruct (seq_str name lit)
         end;
    try reflexivity;
    cbn [logged executeWeather executeExchangeRate executeTranslate
         executeSummarize executeWebSearch executeFetchUrl executeDatetime];
    unfold unobserved, lift; cbn [fst snd];
    match goal with
    | |- context [let (_, _) := ?c in _] => destruct c as [[?|?] ?]; reflexivity
    | |- _ => idtac
    end.
  change (Tools.executeCalculate (logged E) args)
    with (Tools.executeCalculate E args).
  destruct (Tools.executeCalculate E args); reflexivity.
Qed.

Lemma iteration_observed apiKey st w log :
  iteration (logged E) apiKey st (w, log)
  = (fst (iteration E apiKey st w),
     (snd (iteration E apiKey st w), log ++ [contents st])%list).
Proof.
  rewrite !iteration_advance. unfold bind, lift.
  cbn [logged http_post fst snd].
  destruct (http_post E (endpoint apiKey) (contents st) w) as [[geminiRes|e] w1];
    [|reflexivity].
  change (complete (logged E) geminiRes) with (complete E geminiRes).
  destruct (complete E geminiRes) as [o|e]; [|reflexivity].
  destruct o as [message| |name args raw|text|]; try reflexivity.
  cbn [advance]. unfold bind, ret.
  rewrite executeTool_observed.
  destruct (executeTool E name args apiKey w1) as [[result|e] w2]; reflexivity.
Qed.

Lemma tool_loop_observed apiKey remaining : forall st w log,
  exists posted,
    tool_loop (logged E) apiKey remaining st (w, log)
    = (fst (tool_loop E apiKey remaining st w),
       (snd (tool_loop E apiKey remaining st w), log ++ posted)%list).
Proof.
  induction remaining as [|remaining IH]; intros st w log.
  - exists []. simpl. rewrite app_nil_r. reflexivity.
  - rewrite !tool_loop_step, iteration_observed.
    destruct (iteration E apiKey st w) as [[[st1|r1]|e] w1]; cbn [fst snd].
    + destruct (IH st1 w1 (log ++ [contents st])%list) as [posted Hrun].
      exists (contents st :: posted). rewrite Hrun, <- app_assoc. reflexivity.
    + exists [contents st]. reflexivity.
    + exists [contents st]. reflexivity.
Qed.

End WithEnvironment.

End Observed.

(* ===================================================================== *)
(** * chat.ts: what a session guarantees                                  *)
(* ===================================================================== *)

Module Orchestrator.

Import Chat Gateway JSFacts Refinement Dispatcher Loop Observed.

Section Builder.

Lemma history_turns_typed (history : list ChatMessage) :
  history_turns (map message_value history) = Normal (map prior_turn history).
Proof.
  induction history as [|m rest IH]; [reflexivity|].
  simpl. rewrite IH. destruct m as [[|] t]; reflexivity.
Qed.

(** The loop of chat.ts:188-206 builds what the specification's builder
    describes. *)
Lemma initial_contents_build message (history : list ChatMessage) :
  initial_contents message (history_value history) = Normal (build history message).
Proof.
  unfold initial_contents, history_value. simpl iterate. cbn [cbind].
  rewrite history_turns_typed. cbn [cbind].
  destruct history as [|m rest]; reflexivity.
Qed.

(** C6.  With an empty history the transcript is one user turn whose text
    is the fixed system instruction followed by the message as given;
    with a non-empty one it is the prior turns, each with its role mapped
    (assistant to model, user to user) and its text as given, followed
    by a user turn carrying the message alone. *)
Theorem initial_contents_spec (message : string) (history : list ChatMessage) :
  initial_contents message (history_value [])
  = Normal [mkContent "user" (text_parts (VStr (system_instruction ++ message)))]
  /\
  (history <> [] ->
   initial_contents message (history_value history)
   = Normal (map prior_turn history
             ++ [mkContent "user" (text_parts (VStr message))])%list)
  /\
  (forall m, prior_turn m
             = mkContent (match role m with assistant => "model" | user => "user" end)
                         (VArr [VObj [("text", VStr (text m))]])).
Proof.
  split; [reflexivity|]. split; [|reflexivity].
  intros Hne. rewrite initial_contents_build.
  destruct history; [congruence | reflexivity].
Qed.

Lemma initial_contents_spec_witness :
  initial_contents "and tomorrow?"
    (history_value [mkChatMessage user "weather in Seoul?";
                    mkChatMessage assistant "5 degrees, clear"])
  = Normal [mkContent "user" (text_parts (VStr "weather in Seoul?"));
            mkContent "model" (text_parts (VStr "5 degrees, clear"));
            mkContent "user" (text_parts (VStr "and tomorrow?"))].
Proof.
  apply (proj1 (proj2 (initial_contents_spec "and tomorrow?"
    [mkChatMessage user "weather in Seoul?";
     mkChatMessage assistant "5 degrees, clear"]))).
  discriminate.
Defined.

End Builder.

Section WithEnvironment.

Variable E : Environment.

Local Abbreviation str := (ToString (number_to_string E)).

Lemma chat_session_unfold message history apiKey w :
  chat_session E message history apiKey w =
  match initial_contents message history with
  | Normal contents0 => tool_loop E apiKey MAX_TOOL_CALLS (mkSession contents0 []) w
  | Throw e => (Throw e, w)
  end.
Proof.
  unfold chat_session, bind, lift.
  destruct (initial_contents message history); reflexivity.
Qed.

Lemma handleChat_unfold message history apiKey w :
  handleChat E message history apiKey w =
  match chat_session E message history apiKey w with
  | (Normal (st, r), w') => (Normal r, w')
  | (Throw e, w') => (Throw e, w')
  end.
Proof.
  unfold handleChat, bind, ret.
  destruct (chat_session E message history apiKey w) as [[[st r]|e] w']; reflexivity.
Qed.


(** C4.  When a pass continues, the model turn it appended carries the
    very value the response held at [candidates[0].content.parts]: the
    whole segment list, with whatever fields the service attached. *)
Theorem raw_model_turn_appended
    (apiKey : string) (st st' : session) (w w' : World E) :
  iteration E apiKey st w = (Normal (Continue st'), w') ->
  exists geminiRes w1 geminiData raw name result,
    http_post E (endpoint apiKey) (contents st) w = (Normal geminiRes, w1) /\
    json geminiRes = Normal geminiData /\
    segments geminiData = Normal raw /\
    contents st'
    = (contents st ++ [mkContent "model" raw;
                       mkContent "user" (function_response name result)])%list.
Proof.
  intros H.
  destruct (pass_continue E _ _ _ _ _ H)
    as [geminiRes [w1 [geminiData [[raw name result] [Hpost [Hjson [Hseg [_ ->]]]]]]]].
  exists geminiRes, w1, geminiData, raw, name, result. auto.
Qed.



Lemma array_find_none test elems :
  Forall (fun p => exists u, test p = Normal u /\ truthy u = false) elems ->
  array_find test elems = Normal VUndefined.
Proof.
  induction 1 as [|p rest [u [Hu Hf]] _ IH]; simpl; [reflexivity|].
  rewrite Hu, Hf. exact IH.
Qed.

(** A pass that ends the session, as the loop sees it. *)
Lemma tool_loop_stops apiKey remaining st w geminiRes w1 o :
  http_post E (endpoint apiKey) (contents st) w = (Normal geminiRes, w1) ->
  complete E geminiRes = Normal o ->
  (forall name args raw, o <> ToolCallRequested name args raw) ->
  exists reply,
    advance E apiKey st o w1
    = (Normal (Return (mkChatResponse reply (toolsUsed st))), w1) /\
    tool_loop E apiKey (S remaining) st w
    = (Normal (st, mkChatResponse reply (toolsUsed st)), w1).
Proof.
  intros Hpost Ho Hno.
  destruct (advance_cases E apiKey st o w1)
    as [[reply [Hstop _]] | [name [args [raw [result [w2 [-> _]]]]]]].
  - exists reply. split; [exact Hstop|].
    rewrite tool_loop_step, iteration_advance. unfold bind, lift.
    rewrite Hpost, Ho, Hstop. reflexivity.
  - exfalso. eapply Hno. reflexivity.
Qed.


(** In shape, a response can be read. *)
Lemma complete_normal geminiRes geminiData :
  json geminiRes = Normal geminiData ->
  well_shaped geminiData = true ->
  exists o, complete E geminiRes = Normal o.
Proof.
  intros Hjson Hshape. unfold well_shaped in Hshape.
  apply andb_prop in Hshape. destruct Hshape as [Hdata Hparts].
  apply negb_true_iff in Hdata.
  unfold complete. rewrite Hjson. cbn [cbind].
  destruct (ok geminiRes); cbn [negb].
  - destruct (segments geminiData) as [parts|e]; [|discriminate].
    cbn [cbind]. destruct (has_length parts) eqn:Hlen; cbn [negb]; [|eauto].
    destruct parts as [| |b|x|s|elems|fields];
      try (simpl in Hparts; discriminate).
    unfold requested. cbn [find].
    destruct (array_find_normal "functionCall" elems Hparts) as [call Hcall].
    rewrite Hcall. cbn [cbind].
    destruct (truthy call) eqn:Htruthy.
    + destruct (array_find_found _ _ _ Hcall Htruthy) as [_ [fc [Hfc Hfct]]].
      rewrite Hfc. cbn [cbind].
      destruct (get_normal fc "name" (truthy_defined _ Hfct)) as [name Hname].
      destruct (get_normal fc "args" (truthy_defined _ Hfct)) as [args Hargs].
      rewrite Hname. cbn [cbind]. rewrite Hargs. cbn [cbind]. eauto.
    + destruct (array_find_normal "text" elems Hparts) as [textPart Htext].
      rewrite Htext. cbn [cbind].
      destruct (truthy textPart) eqn:Ht; [|eauto].
      destruct (get_normal textPart "text" (truthy_defined _ Ht)) as [text Hget].
      rewrite Hget. cbn [cbind]. eauto.
  - destruct (get_normal geminiData "error" Hdata) as [error Herror].
    rewrite Herror. cbn [cbind].
    destruct (get_opt_normal error "message") as [message Hmessage].
    rewrite Hmessage. cbn [cbind]. eauto.
Qed.

Lemma tool_loop_normal apiKey remaining :
  well_behaved E ->
  forall st w, exists st' r w',
    tool_loop E apiKey remaining st w = (Normal (st', r), w').
Proof.
  intros Hwell. induction remaining as [|remaining IH]; intros st w.
  - simpl. unfold ret. eauto.
  - destruct (Hwell (endpoint apiKey) (contents st) w)
      as [geminiRes [w1 [geminiData [Hpost [Hjson Hshape]]]]].
    destruct (complete_normal _ _ Hjson Hshape) as [o Ho].
    rewrite tool_loop_step, iteration_advance. unfold bind, lift.
    rewrite Hpost, Ho.
    destruct (advance_cases E apiKey st o w1)
      as [[reply [Hstop _]] | [name [args [raw [result [w2 [_ [_ Hgo]]]]]]]].
    + rewrite Hstop. eauto.
    + rewrite Hgo. apply IH.
Qed.

(** An exception from the request, or from reading its body, ends the
    loop as an exception. *)
Lemma tool_loop_throws apiKey remaining st w e w1 :
  http_post E (endpoint apiKey) (contents st) w = (Throw e, w1)
  \/ (exists geminiRes,
        http_post E (endpoint apiKey) (contents st) w = (Normal geminiRes, w1) /\
        json geminiRes = Throw e) ->
  tool_loop E apiKey (S remaining) st w = (Throw e, w1).
Proof.
  intros [Hpost | [geminiRes [Hpost Hjson]]];
    rewrite tool_loop_step, iteration_advance; unfold bind, lift; rewrite Hpost.
  - reflexivity.
  - unfold complete. rewrite Hjson. reflexivity.
Qed.



End WithEnvironment.

End Orchestrator.

(* ===================================================================== *)
(** * index.ts: validation in front of the orchestrator                   *)
(* ===================================================================== *)

Module Routing.

Import Chat Worker Gateway.

Section WithEnvironment.

Variable E : Environment.

(** A message passes index.ts:382 exactly when it is a non-empty string. *)
Lemma message_check (message : value) :
  negb (truthy message) || negb (is_string message) = false <->
  exists m, message = VStr m /\ m <> "".
Proof.
  split.
  - destruct message as [| |b|x|s|elems|fields]; simpl;
      rewrite ?orb_true_r; try discriminate.
    rewrite orb_false_r. intros H. apply negb_false_iff in H.
    apply negb_true_iff in H. exists s. split; [reflexivity|].
    intros ->. discriminate.
  - intros [m [-> Hm]]. simpl. rewrite orb_false_r.
    apply negb_false_iff, negb_true_iff.
    destruct (String.eqb_spec m ""); [contradiction | reflexivity].
Qed.

Lemma fetch_chat request env :
  pathname request = "/api/chat" -> method request = "POST" ->
  fetch E request env = chat_route E request env.
Proof. unfold fetch. intros -> ->. reflexivity. Qed.

(** The chat route, branch by branch. *)
Lemma chat_route_cases request env w data message history :
  body request = Normal data ->
  get data "message" = Normal message ->
  get data "history" = Normal history ->
  chat_route E request env w =
  if negb (truthy message) || negb (is_string message) then
    (Normal (JsonBody 400 (error_body "message is required")), w)
  else if key_missing (GEMINI_API_KEY env) then
    (Normal (JsonBody 500 (error_body "GEMINI_API_KEY not configured")), w)
  else
    match handleChat E (match message with VStr m => m | _ => "" end)
            (or_else history (VArr []))
            (match GEMINI_API_KEY env with Some k => k | None => "" end) w
    with
    | (Normal r, w') => (Normal (JsonBody 200 (chat_body r)), w')
    | (Throw err, w') => (Normal (JsonBody 500 (error_body (err_message err))), w')
    end.
Proof.
  intros Hbody Hmessage Hhistory.
  unfold chat_route, try_catch, bind, lift, ret.
  rewrite Hbody, Hmessage, Hhistory.
  destruct (negb (truthy message) || negb (is_string message)); [reflexivity|].
  destruct (key_missing (GEMINI_API_KEY env)); [reflexivity|].
  match goal with
  | |- context [handleChat E ?m ?h ?k w] =>
      destruct (handleChat E m h k w) as [[r|err] w']
  end; reflexivity.
Qed.

(** C9, as the code has it.  For a POST to /api/chat whose body is JSON
    other than [null]: unless [message] is a non-empty string the request
    is answered with status 400 and nothing else happens; when it is one,
    the answer is never a 400: without a configured API key it is a 500
    and nothing else happens, and with one [handleChat] is called on that
    message and on [history || []] (the empty list when [history] is
    absent), its value sent back with status 200 and its exception with
    status 500. *)
Theorem chat_route_validation
    (request : Request) (env : Env) (w : World E) (data message history : value) :
  pathname request = "/api/chat" ->
  method request = "POST" ->
  body request = Normal data ->
  get data "message" = Normal message ->
  get data "history" = Normal history ->
  ((forall m, message = VStr m -> m = "") ->
   fetch E request env w
   = (Normal (JsonBody 400 (error_body "message is required")), w))
  /\
  (forall m, message = VStr m -> m <> "" ->
   (forall payload w',
      fetch E request env w <> (Normal (JsonBody 400 payload), w')) /\
   (key_missing (GEMINI_API_KEY env) = true ->
    fetch E request env w
    = (Normal (JsonBody 500 (error_body "GEMINI_API_KEY not configured")), w)) /\
   (forall k, GEMINI_API_KEY env = Some k -> k <> "" ->
    fetch E request env w
    = match handleChat E m (or_else history (VArr [])) k w with
      | (Normal r, w') => (Normal (JsonBody 200 (chat_body r)), w')
      | (Throw err, w') => (Normal (JsonBody 500 (error_body (err_message err))), w')
      end) /\
   (truthy history = false -> or_else history (VArr []) = VArr [])).
Proof.
  intros Hpath Hmethod Hbody Hmessage Hhistory.
  rewrite (fetch_chat request env Hpath Hmethod).
  rewrite (chat_route_cases request env w data message history Hbody Hmessage Hhistory).
  split.
  - intros Hnot.
    destruct (negb (truthy message) || negb (is_string message)) eqn:Hcheck;
      [reflexivity|].
    apply message_check in Hcheck. destruct Hcheck as [m [Hm Hne]].
    elim Hne. apply Hnot. exact Hm.
  - intros m Hm Hne.
    assert (Hcheck : negb (truthy message) || negb (is_string message) = false)
      by (apply message_check; eauto).
    rewrite Hcheck, Hm.
    split; [|split; [|split]].
    + intros payload w'.
      destruct (key_missing (GEMINI_API_KEY env)); [discriminate|].
      match goal with
      | |- context [handleChat E ?m ?h ?k w] =>
          destruct (handleChat E m h k w) as [[r|err] w0]
      end; discriminate.
    + intros Hkey. rewrite Hkey. reflexivity.
    + intros k Hk Hkne. rewrite Hk. simpl key_missing.
      destruct (String.eqb_spec k ""); [contradiction | reflexivity].
    + intros Hfalsy. unfold or_else. rewrite Hfalsy. reflexivity.
Qed.

(** A body that is [null], or not JSON at all, is answered with status
    500 and the exception's message; nothing else happens. *)
Lemma chat_route_unreadable request env w :
  (body request = Normal VNull \/ exists e, body request = Throw e) ->
  exists msg, chat_route E request env w = (Normal (JsonBody 500 (error_body msg)), w).
Proof.
  unfold chat_route, try_catch, bind, lift, ret.
  intros [-> | [e ->]]; eexists; reflexivity.
Qed.

(** Whatever happens behind it, the chat route answers: no exception
    leaves the handler. *)
Lemma chat_route_answers request env w :
  exists response w', chat_route E request env w = (Normal response, w').
Proof.
  unfold chat_route, try_catch, bind, lift, ret.
  destruct (body request) as [data|e]; [|eauto].
  destruct (get data "message") as [message|e]; [|eauto].
  destruct (get data "history") as [history|e]; [|eauto].
  destruct (negb (truthy message) || negb (is_string message)); [eauto|].
  destruct (key_missing (GEMINI_API_KEY env)); [eauto|].
  match goal with
  | |- context [handleChat E ?m ?h ?k w] =>
      destruct (handleChat E m h k w) as [[r|err] w']
  end; eauto.
Qed.

End WithEnvironment.

End Routing.

(* ===================================================================== *)
(** * Worked sessions                                                     *)
(* ===================================================================== *)

Module Scenarios.

Import Chat Worker Gateway Scripted Orchestrator Routing.

(** Scenario A: one tool call, then the answer. *)
Example scenario_A :
  fst (handleChat env "What's the weather in Seoul?" (VArr []) "k"
         (start [calls "weather" Seoul; says "It's 5°C and clear in Seoul."] offline))
  = Normal (mkChatResponse (VStr "It's 5°C and clear in Seoul.") [VStr "weather"]).
Proof. reflexivity. Qed.

(** Scenario B: six tool-call responses are on offer; five are taken. *)
Example scenario_B :
  let script := repeat (calls "weather" Seoul) 6 in
  let session := handleChat env "hi" (VArr []) "k" (start script offline) in
  fst session = Normal (mkChatResponse budget_reply (repeat (VStr "weather") 5))
  /\ replies (snd session) = [calls "weather" Seoul].
Proof. split; reflexivity. Qed.

(** Scenario C: the first response has a non-success status. *)
Example scenario_C :
  fst (handleChat env "hi" (VArr []) "k" (start [refuses "quota exceeded"] offline))
  = Normal (mkChatResponse
              (VStr "Gemini API 오류가 발생했습니다: quota exceeded") []).
Proof. reflexivity. Qed.

(** Scenario D: a name no executor is registered for. *)
Example scenario_D :
  let session :=
    handleChat env "hi" (VArr []) "k"
      (start [calls "unknown_tool" VNull; says "sorry"] offline) in
  fst session = Normal (mkChatResponse (VStr "sorry") [VStr "unknown_tool"])
  /\ map is_post (journal (snd session)) = [true; true].
Proof. split; reflexivity. Qed.

(** ** C1 *)


(** ** C2 *)


(** A call rejected after a tool has run: the exception is all the
    caller gets. *)
Example late_failure_escapes :
  fst (handleChat env "hi" (VArr []) "k" (start [calls "weather" Seoul] offline))
  = Throw (TypeError "fetch failed").
Proof. reflexivity. Qed.


(** ** C3 *)



(** ** C4 *)

Lemma raw_model_turn_appended_witness :
  exists st' w',
    iteration env "k" (asked "weather in Seoul?")
      (start [calls "weather" Seoul] offline) = (Normal (Continue st'), w') /\
    exists geminiRes w1 geminiData raw name result,
      http_post env (endpoint "k") (contents (asked "weather in Seoul?"))
        (start [calls "weather" Seoul] offline) = (Normal geminiRes, w1) /\
      json geminiRes = Normal geminiData /\
      segments geminiData = Normal raw /\
      contents st'
      = (contents (asked "weather in Seoul?")
         ++ [mkContent "model" raw;
             mkContent "user" (function_response name result)])%list.
Proof.
  assert (H : exists st' w',
             iteration env "k" (asked "weather in Seoul?")
               (start [calls "weather" Seoul] offline) = (Normal (Continue st'), w'))
    by (eexists; eexists; cbv; reflexivity).
  destruct H as [st' [w' H]]. exists st', w'. split; [exact H|].
  exact (raw_model_turn_appended env _ _ _ _ _ H).
Defined.

(** The signature that came with the call is in the transcript as it
    came. *)
Example thought_signature_kept :
  exists st' w',
    iteration env "k" (asked "weather in Seoul?")
      (start [calls "weather" Seoul] offline) = (Normal (Continue st'), w') /\
    nth 1 (contents st') (mkContent "" VNull)
    = mkContent "model" (VArr [call_segment "weather" Seoul]) /\
    lookup "thoughtSignature"
      (match call_segment "weather" Seoul with VObj fields => fields | _ => [] end)
    = VStr "c2lnbmF0dXJl".
Proof. eexists. eexists. repeat split; cbv; reflexivity. Qed.

(** ** C5 *)


(** ** C7 *)


(** ** C8 *)


(** A non-success status with the body [null]: the session ends with
    the exception the read of [error] raises. *)
Example service_error_without_body :
  exists e,
    fst (handleChat env "hi" (VArr []) "k"
           (start [Normal (mkResponse false (Normal VNull))] offline))
    = Throw e.
Proof. eexists. reflexivity. Qed.

(** ** C9 *)

(** The empty string is a string, and the request is turned away all the
    same; and a good message is turned away too when no key is
    configured.  Neither reaches the orchestrator: the journal stays
    empty. *)
Lemma empty_message_rejected :
  Worker.fetch env
    (mkRequest "/api/chat" "POST" (Normal (VObj [("message", VStr "")])))
    (mkEnv (Some "k")) (start [says "hello"] offline)
  = (Normal (JsonBody 400 (error_body "message is required")),
     start [says "hello"] offline)
  /\
  Worker.fetch env
    (mkRequest "/api/chat" "POST" (Normal (VObj [("message", VStr "hi")])))
    (mkEnv None) (start [says "hello"] offline)
  = (Normal (JsonBody 500 (error_body "GEMINI_API_KEY not configured")),
     start [says "hello"] offline).
Proof. split; reflexivity. Qed.

Lemma chat_route_validation_witness :
  Worker.fetch env
    (mkRequest "/api/chat" "POST" (Normal (VObj [("message", VNum 7)])))
    (mkEnv (Some "k")) (start [says "hello"] offline)
  = (Normal (JsonBody 400 (error_body "message is required")),
     start [says "hello"] offline)
  /\
  Worker.fetch env
    (mkRequest "/api/chat" "POST" (Normal (VObj [("message", VStr "hi")])))
    (mkEnv (Some "k")) (start [says "hello"] offline)
  = (Normal (JsonBody 200
               (VObj [("reply", VStr "hello"); ("tools_used", VArr [])])),
     mkWorld [] offline [Posted (endpoint "k") (build [] "hi")]).
Proof.
  split.
  - apply (proj1 (chat_route_validation env
                    (mkRequest "/api/chat" "POST" (Normal (VObj [("message", VNum 7)])))
                    (mkEnv (Some "k")) (start [says "hello"] offline)
                    (VObj [("message", VNum 7)]) (VNum 7) VUndefined
                    eq_refl eq_refl eq_refl eq_refl eq_refl)).
    intros m Hm. discriminate Hm.
  - destruct (proj2 (chat_route_validation env
                       (mkRequest "/api/chat" "POST" (Normal (VObj [("message", VStr "hi")])))
                       (mkEnv (Some "k")) (start [says "hello"] offline)
                       (VObj [("message", VStr "hi")]) (VStr "hi") VUndefined
                       eq_refl eq_refl eq_refl eq_refl eq_refl)
                "hi" eq_refl) as [_ [_ [Hcalled _]]].
    { discriminate. }
    rewrite (Hcalled "k" eq_refl); [reflexivity | discriminate].
Defined.

End Scenarios.

(* ===================================================================== *)
(** * Further properties of chat.ts and of the calculator                 *)
(* ===================================================================== *)

Module ChatMore.

Import Chat Gateway JSFacts Refinement Dispatcher Loop Observed.

(** A history the loop of chat.ts:188 can walk: something iterable, with
    no [null] among its entries. *)
Definition walkable (history : value) : bool :=
  match history with
  | VArr elems => forallb (fun msg => negb (nullish msg)) elems
  | VStr _ => true
  | _ => false
  end.

(** A field of an entry, [undefined] when the entry is not an object. *)
Definition field (msg : value) (key : string) : value :=
  match msg with
  | VObj fields => lookup key fields
  | _ => VUndefined
  end.

(** The turn an entry becomes: a model turn when its role is exactly
    ["assistant"], a user turn otherwise. *)
Definition turn_of (msg : value) : content :=
  mkContent (if seq_str (field msg "role") "assistant" then "model" else "user")
            (text_parts (field msg "text")).

Lemma get_field msg key : nullish msg = false -> get msg key = Normal (field msg key).
Proof. destruct msg; simpl; intros H; try discriminate; reflexivity. Qed.

Lemma history_turns_walk elems :
  forallb (fun msg => negb (nullish msg)) elems = true ->
  history_turns elems = Normal (map turn_of elems).
Proof.
  induction elems as [|msg rest IH]; simpl; intros H; [reflexivity|].
  apply andb_prop in H. destruct H as [Hmsg Hrest].
  apply negb_true_iff in Hmsg.
  unfold history_turn. rewrite !(get_field _ _ Hmsg). cbn [cbind].
  rewrite (IH Hrest). reflexivity.
Qed.

Lemma history_turns_stumble elems :
  forallb (fun msg => negb (nullish msg)) elems = false ->
  exists e, history_turns elems = Throw e.
Proof.
  induction elems as [|msg rest IH]; simpl; intros H; [discriminate|].
  destruct (nullish msg) eqn:Hmsg.
  - destruct msg; try discriminate; eexists; reflexivity.
  - simpl in H. unfold history_turn. rewrite !(get_field _ _ Hmsg). cbn [cbind].
    destruct (IH H) as [e He]. rewrite He. eexists. reflexivity.
Qed.

Lemma code_points_defined s :
  forallb (fun msg => negb (nullish msg)) (map VStr (code_points s)) = true.
Proof. induction (code_points s); simpl; auto. Qed.

(** The histories for which a transcript is built. *)
Lemma initial_contents_defined (message : string) (history : value) :
  (exists contents0, initial_contents message history = Normal contents0)
  <-> walkable history = true.
Proof.
  unfold initial_contents, walkable.
  destruct history as [| |b|x|s|elems|fields]; simpl iterate; cbn [cbind];
    try (split; [intros [c H]; discriminate | discriminate]).
  - rewrite (history_turns_walk _ (code_points_defined s)). cbn [cbind].
    split; [reflexivity|]. intros _.
    destruct (List.length (map turn_of (map VStr (code_points s))) =? 0)%nat;
      eexists; reflexivity.
  - destruct (forallb (fun msg => negb (nullish msg)) elems) eqn:Hall.
    + rewrite (history_turns_walk _ Hall). cbn [cbind].
      split; [reflexivity|]. intros _.
      destruct (List.length (map turn_of elems) =? 0)%nat; eexists; reflexivity.
    + destruct (history_turns_stumble _ Hall) as [e He]. rewrite He.
      split; [intros [c H]; discriminate | discriminate].
Qed.

(** X1.  The transcript is built exactly for the histories that can be
    walked: an array (or a string) without a [null] entry.  Every entry
    whose role is not exactly ["assistant"] (another word, a number, no
    role at all) becomes a user turn, and its [text] is carried as it
    is, [undefined] when it has none; the system instruction goes in
    front of the message only when the history has no entry. *)
Theorem initial_contents_walk (message : string) (history : value) :
  ((exists contents0, initial_contents message history = Normal contents0)
   <-> walkable history = true)
  /\
  (forall elems,
     history = VArr elems ->
     forallb (fun msg => negb (nullish msg)) elems = true ->
     initial_contents message history
     = Normal (map turn_of elems
               ++ [mkContent "user"
                     (text_parts
                        (VStr (match elems with
                               | [] => system_instruction ++ message
                               | _ => message
                               end)))])%list).
Proof.
  split; [apply initial_contents_defined|].
  intros elems -> Hall. unfold initial_contents. simpl iterate. cbn [cbind].
  rewrite (history_turns_walk _ Hall). cbn [cbind].
  destruct elems; reflexivity.
Qed.

Lemma initial_contents_walk_witness :
  initial_contents "and now?"
    (VArr [VObj [("role", VStr "system"); ("text", VStr "be brief")];
           VObj [("role", VStr "assistant")];
           VNum 7])
  = Normal [mkContent "user" (text_parts (VStr "be brief"));
            mkContent "model" (text_parts VUndefined);
            mkContent "user" (text_parts VUndefined);
            mkContent "user" (text_parts (VStr "and now?"))].
Proof.
  exact (proj2 (initial_contents_walk "and now?"
                  (VArr [VObj [("role", VStr "system"); ("text", VStr "be brief")];
                         VObj [("role", VStr "assistant")];
                         VNum 7]))
           [VObj [("role", VStr "system"); ("text", VStr "be brief")];
            VObj [("role", VStr "assistant")];
            VNum 7]
           eq_refl eq_refl).
Defined.

Section WithEnvironment.

Variable E : Environment.

Local Abbreviation str := (ToString (number_to_string E)).



(** X4.  A response with no function-call segment and at least one
    segment with a text ends the session with the first such text as the
    reply, as it came; later segments, text or not, are not looked at,
    and no tool is run. *)
Theorem first_text_is_the_reply
    (apiKey : string) (remaining : nat) (st : session) (w w1 : World E)
    (geminiRes : Response) (geminiData : value)
    (before after : list value) (part text : value) :
  http_post E (endpoint apiKey) (contents st) w = (Normal geminiRes, w1) ->
  ok geminiRes = true ->
  json geminiRes = Normal geminiData ->
  segments geminiData = Normal (VArr (before ++ part :: after)) ->
  Forall (fun p => exists u, get p "functionCall" = Normal u /\ truthy u = false)
         (before ++ part :: after) ->
  Forall (fun p => exists u, get p "text" = Normal u /\ truthy u = false) before ->
  get part "text" = Normal text ->
  truthy text = true ->
  tool_loop E apiKey (S remaining) st w
  = (Normal (st, mkChatResponse text (toolsUsed st)), w1).
Proof.
  intros Hpost Hok Hjson Hseg Hnocall Hbefore Hpart Htext.
  assert (Htruthy : truthy part = true).
  { destruct part; simpl in Hpart; inversion Hpart; subst; try discriminate.
    reflexivity. }
  assert (Ho : complete E geminiRes = Normal (FinalAnswer text)).
  { unfold complete. rewrite Hjson. cbn [cbind]. rewrite Hok. cbn [negb].
    rewrite Hseg. cbn [cbind].
    assert (Hlen : has_length (VArr (before ++ part :: after)) = true).
    { simpl. rewrite length_app. simpl. rewrite Nat.add_succ_r. reflexivity. }
    rewrite Hlen. cbn [negb]. unfold requested. cbn [find].
    rewrite (Orchestrator.array_find_none _ _ Hnocall). cbn [cbind truthy].
    rewrite (array_find_first _ before part after text Hbefore Hpart Htext).
    cbn [cbind]. rewrite Htruthy, Hpart. reflexivity. }
  rewrite tool_loop_step, iteration_advance. unfold bind, lift.
  rewrite Hpost, Ho. reflexivity.
Qed.

(** X5.  A function call that carries no name still goes through the
    loop: [undefined] is what [tools_used] records, the dispatcher
    answers with the unknown-tool text for it without running anything,
    and the pass continues. *)
Theorem nameless_call_is_recorded
    (apiKey : string) (st : session) (w w1 : World E) (geminiRes : Response)
    (geminiData : value) (before after : list value) (call functionCall : value) :
  http_post E (endpoint apiKey) (contents st) w = (Normal geminiRes, w1) ->
  ok geminiRes = true ->
  json geminiRes = Normal geminiData ->
  segments geminiData = Normal (VArr (before ++ call :: after)) ->
  Forall (fun p => exists u, get p "functionCall" = Normal u /\ truthy u = false)
         before ->
  get call "functionCall" = Normal functionCall ->
  truthy functionCall = true ->
  get functionCall "name" = Normal VUndefined ->
  iteration E apiKey st w
  = (Normal (Continue
       (mkSession
          (contents st
           ++ [mkContent "model" (VArr (before ++ call :: after));
               mkContent "user"
                 (function_response VUndefined "알 수 없는 도구: undefined")])
          (toolsUsed st ++ [VUndefined]))%list), w1).
Proof.
  intros Hpost Hok Hjson Hseg Hbefore Hcall Hfc Hname.
  destruct (get_normal functionCall "args" (truthy_defined _ Hfc)) as [args Hargs].
  assert (Htruthy : truthy call = true).
  { destruct call; simpl in Hcall; inversion Hcall; subst; try discriminate.
    reflexivity. }
  assert (Ho : complete E geminiRes
               = Normal (ToolCallRequested VUndefined args
                           (VArr (before ++ call :: after)))).
  { unfold complete. rewrite Hjson. cbn [cbind]. rewrite Hok. cbn [negb].
    rewrite Hseg. cbn [cbind].
    assert (Hlen : has_length (VArr (before ++ call :: after)) = true).
    { simpl. rewrite length_app. simpl. rewrite Nat.add_succ_r. reflexivity. }
    rewrite Hlen. cbn [negb]. unfold requested. cbn [find].
    rewrite (array_find_first _ before call after functionCall Hbefore Hcall Hfc).
    cbn [cbind]. rewrite Htruthy, Hcall. cbn [cbind]. rewrite Hname. cbn [cbind].
    rewrite Hargs. reflexivity. }
  rewrite iteration_advance. unfold bind, lift. rewrite Hpost, Ho.
  cbn [advance]. unfold bind. rewrite executeTool_resolve. reflexivity.
Qed.

(** The requests of a loop, counted against the tools it used. *)
Lemma tool_loop_accounts apiKey remaining : forall st w log,
  exists posted,
    tool_loop (logged E) apiKey remaining st (w, log)
    = (fst (tool_loop E apiKey remaining st w),
       (snd (tool_loop E apiKey remaining st w), log ++ posted)%list) /\
    List.length posted <= remaining /\
    forall st' r,
      fst (tool_loop E apiKey remaining st w) = Normal (st', r) ->
      List.length posted + List.length (toolsUsed st)
      = List.length (tools_used r) + 1
      \/ (List.length posted = remaining /\
          List.length (tools_used r) = List.length (toolsUsed st) + remaining /\
          reply r = budget_reply).
Proof.
  induction remaining as [|remaining IH]; intros st w log.
  - exists []. simpl. rewrite app_nil_r. split; [reflexivity|]. split; [lia|].
    intros st' r H. inversion H; subst. right. simpl. auto.
  - rewrite !tool_loop_step, iteration_observed.
    destruct (iteration E apiKey st w) as [[[st1|r1]|e] w1] eqn:Hpass;
      cbn [fst snd].
    + destruct (IH st1 w1 (log ++ [contents st])%list) as [posted [Hrun [Hlen Hacc]]].
      exists (contents st :: posted). rewrite Hrun, <- app_assoc.
      split; [reflexivity|]. split; [simpl; lia|].
      intros st' r H.
      destruct (pass_continue _ _ _ _ _ _ Hpass)
        as [geminiRes [w0 [geminiData [x [_ [_ [_ [_ Hst1]]]]]]]].
      assert (Hused : List.length (toolsUsed st1) = List.length (toolsUsed st) + 1).
      { rewrite Hst1. simpl. rewrite length_app. reflexivity. }
      destruct (Hacc st' r H) as [Hone | [Hall [Htools Hbudget]]].
      * left. simpl. lia.
      * right. simpl. repeat split; auto; lia.
    + exists [contents st]. split; [reflexivity|]. split; [simpl; lia|].
      intros st' r H. inversion H; subst. left.
      rewrite (pass_return _ _ _ _ _ _ Hpass). simpl. lia.
    + exists [contents st]. split; [reflexivity|]. split; [simpl; lia|].
      intros st' r H. discriminate.
Qed.


End WithEnvironment.

End ChatMore.

(* ===================================================================== *)
(** * Further properties of index.ts and of the tools that call out       *)
(* ===================================================================== *)

Module RouteMore.

Import Chat Worker.

Section WithEnvironment.

Variable E : Environment.

(** X7.  Whatever the request and whatever happens behind it, the chat
    route answers with a JSON body and one of three statuses.  A 400 is
    given before anything is asked of the outside; a 200 carries exactly
    what [handleChat] returned. *)
Theorem chat_route_statuses (request : Request) (env : Env) (w : World E) :
  exists status payload w',
    chat_route E request env w = (Normal (JsonBody status payload), w') /\
    (status = 200 \/ status = 400 \/ status = 500) /\
    (status = 400 -> w' = w) /\
    (status = 200 ->
     exists message history apiKey r,
       handleChat E message history apiKey w = (Normal r, w') /\
       payload = chat_body r).
Proof.
  unfold chat_route, try_catch, bind, lift, ret.
  destruct (body request) as [data|e];
    [|exists 500; do 2 eexists; split; [reflexivity|];
      split; [auto|]; split; discriminate].
  destruct (get data "message") as [message|e];
    [|exists 500; do 2 eexists; split; [reflexivity|];
      split; [auto|]; split; discriminate].
  destruct (get data "history") as [history|e];
    [|exists 500; do 2 eexists; split; [reflexivity|];
      split; [auto|]; split; discriminate].
  destruct (negb (truthy message) || negb (is_string message)).
  { exists 400. do 2 eexists. split; [reflexivity|].
    split; [auto|]. split; [reflexivity | discriminate]. }
  destruct (key_missing (GEMINI_API_KEY env)).
  { exists 500. do 2 eexists. split; [reflexivity|].
    split; [auto|]. split; discriminate. }
  match goal with
  | |- context [handleChat E ?m ?h ?k w] =>
      destruct (handleChat E m h k w) as [[r|err] w'] eqn:Hrun
  end.
  - exists 200. do 2 eexists. split; [reflexivity|].
    split; [auto|]. split; [discriminate|]. intros _.
    do 4 eexists. split; [exact Hrun | reflexivity].
  - exists 500. do 2 eexists. split; [reflexivity|].
    split; [auto|]. split; discriminate.
Qed.

(** X15.  A history that is given but cannot be walked (an object, a
    number, a list with a [null] in it) is not a validation failure: the
    message and the key being in order, the orchestrator is entered,
    throws before it has requested anything, and the route answers with
    status 500. *)
Theorem unwalkable_history_is_a_500
    (request : Request) (env : Env) (w : World E)
    (data history : value) (message apiKey : string) :
  pathname request = "/api/chat" ->
  method request = "POST" ->
  body request = Normal data ->
  get data "message" = Normal (VStr message) ->
  message <> "" ->
  get data "history" = Normal history ->
  truthy history = true ->
  ChatMore.walkable history = false ->
  GEMINI_API_KEY env = Some apiKey ->
  apiKey <> "" ->
  exists msg,
    Worker.fetch E request env w = (Normal (JsonBody 500 (error_body msg)), w).
Proof.
  intros Hpath Hmethod Hbody Hmessage Hne Hhistory Htruthy Hwalk Hkey Hkne.
  rewrite (Routing.fetch_chat E request env Hpath Hmethod).
  rewrite (Routing.chat_route_cases E request env w data (VStr message) history
             Hbody Hmessage Hhistory).
  assert (Hcheck : negb (truthy (VStr message)) || negb (is_string (VStr message))
                   = false).
  { apply Routing.message_check. eauto. }
  rewrite Hcheck, Hkey. simpl key_missing.
  destruct (String.eqb_spec apiKey ""); [contradiction|].
  unfold or_else. rewrite Htruthy.
  unfold handleChat, chat_session, bind, lift.
  destruct (initial_contents message history) as [contents0|e] eqn:Hinit.
  - assert (Hyes : ChatMore.walkable history = true)
      by (apply (proj1 (ChatMore.initial_contents_defined message history)); eauto).
    rewrite Hyes in Hwalk. discriminate.
  - eexists. reflexivity.
Qed.

End WithEnvironment.

End RouteMore.

Module RemoteMore.

Import JSObjects RemoteTools JSFacts.

Lemma first_text_normal (data : value) :
  nullish data = false -> exists text, first_text data = Normal text.
Proof.
  intros Hdata. unfold first_text.
  destruct (get_normal data "candidates" Hdata) as [candidates H1]. rewrite H1.
  cbn [cbind].
  destruct (first_opt_normal candidates) as [candidate H2]. rewrite H2. cbn [cbind].
  destruct (get_opt_normal candidate "content") as [content H3]. rewrite H3.
  cbn [cbind].
  destruct (get_opt_normal content "parts") as [parts H4]. rewrite H4. cbn [cbind].
  destruct (first_opt_normal parts) as [part H5]. rewrite H5. cbn [cbind].
  apply get_opt_normal.
Qed.

Lemma append_assoc (s1 s2 s3 : string) : (s1 ++ s2) ++ s3 = s1 ++ (s2 ++ s3).
Proof. induction s1 as [|c s1 IH]; simpl; [reflexivity | rewrite IH; reflexivity]. Qed.

Lemma own_absent key table :
  ~ In key (map fst table) -> own key table = None.
Proof.
  induction table as [|[k s] rest IH]; simpl; intros H; [reflexivity|].
  destruct (String.eqb_spec k key) as [->|_]; [elim H; auto | apply IH; tauto].
Qed.

Section WithNet.

Variable N : Net.

Local Abbreviation E := (base N).
Local Abbreviation str := (ToString (number_to_string (base N))).

(** X8.  [callGemini] makes one request.  When the request is answered
    with a JSON body other than [null] it returns, whatever the status
    and the shape of the body: the error text with the body in it for a
    non-success status, and otherwise the text of the first part of the
    first candidate, as it is (the empty string included), or the fixed
    no-answer text when there is none.  A rejected request or a body
    that is not JSON is thrown on. *)
Theorem callGemini_outcomes (prompt apiKey : string) (w : World E) :
  (forall res w1 data,
     net_fetch N (gemini_url apiKey) (Some (prompt_body prompt)) w = (Normal res, w1) ->
     json res = Normal data ->
     (ok res = false ->
      callGemini N prompt apiKey w
      = (Normal (VStr ("Gemini API 오류: " ++ JSON_stringify E data)), w1))
     /\
     (ok res = true -> nullish data = false ->
      exists text,
        first_text data = Normal text /\
        callGemini N prompt apiKey w
        = (Normal (if nullish text then VStr "응답 없음" else text), w1)))
  /\
  (forall e w1,
     net_fetch N (gemini_url apiKey) (Some (prompt_body prompt)) w = (Throw e, w1) ->
     callGemini N prompt apiKey w = (Throw e, w1))
  /\
  (forall res w1 e,
     net_fetch N (gemini_url apiKey) (Some (prompt_body prompt)) w = (Normal res, w1) ->
     json res = Throw e ->
     callGemini N prompt apiKey w = (Throw e, w1)).
Proof.
  unfold callGemini, bind, lift, ret. split; [|split].
  - intros res w1 data Hfetch Hjson. rewrite Hfetch, Hjson. split.
    + intros Hok. rewrite Hok. reflexivity.
    + intros Hok Hdata. rewrite Hok. cbn [negb].
      destruct (first_text_normal data Hdata) as [text Htext].
      exists text. rewrite Htext. split; reflexivity.
  - intros e w1 Hfetch. rewrite Hfetch. reflexivity.
  - intros res w1 e Hfetch Hjson. rewrite Hfetch, Hjson. reflexivity.
Qed.




End WithNet.

End RemoteMore.

Module McpMore.

Import RemoteTools RemoteMore Mcp JSFacts.

Section WithNet.

Variable N : Net.

Local Abbreviation E := (base N).
Local Abbreviation String_ := (number_to_string (base N)).

(** The IEEE result of an operation. *)
Definition result_of (op : operation) (a b : float) : float :=
  match op with
  | add => a + b
  | subtract => a - b
  | multiply => a * b
  | divide => a / b
  end%float.

(** X12.  The two calculators agree.  On two numbers and one of the four
    operations, the MCP tool and the chat tool refuse together, exactly
    when the operation is a division and the divisor is zero (of either
    sign); otherwise the MCP tool's text is the number the chat tool
    shows after the equals sign. *)
Theorem calculators_agree (op : operation) (a b : float) :
  let args := VObj [("operation", VStr (operation_name op));
                    ("a", VNum a); ("b", VNum b)] in
  (op = divide -> PrimFloat.eqb b 0%float = true ->
   calculate N op a b = text_content (VStr "Error: Division by zero") /\
   Tools.executeCalculate E args = Normal "오류: 0으로 나눌 수 없습니다")
  /\
  ((op = divide -> PrimFloat.eqb b 0%float = false) ->
   calculate N op a b = text_content (VStr (String_ (result_of op a b))) /\
   Tools.executeCalculate E args
   = Normal (String_ a ++ " " ++ operation_name op ++ " " ++ String_ b
             ++ " = " ++ String_ (result_of op a b))).
Proof.
  intros args. split.
  - intros -> Hb. unfold calculate, args, Tools.executeCalculate.
    simpl. rewrite Hb. split; reflexivity.
  - intros Hb. unfold args.
    destruct op; try (split; reflexivity).
    specialize (Hb eq_refl). unfold calculate, Tools.executeCalculate.
    simpl. rewrite Hb. split; reflexivity.
Qed.

(** X13.  [ask_gemini] never throws.  Without a configured key it
    answers at once, and nothing is requested; with one, a rejected
    request, a body that is not JSON and a body that is [null] all end
    in the error text that carries the exception's message. *)
Theorem ask_gemini_contains_failures
    (env : Worker.Env) (prompt : string) (w : World E) :
  (exists text w', ask_gemini N env prompt w = (Normal (text_content text), w'))
  /\
  (Worker.key_missing (Worker.GEMINI_API_KEY env) = true ->
   ask_gemini N env prompt w
   = (Normal (text_content (VStr "Error: GEMINI_API_KEY is not configured")), w))
  /\
  (forall apiKey e w1,
     Worker.GEMINI_API_KEY env = Some apiKey -> apiKey <> "" ->
     net_fetch N (gemini_url apiKey) (Some (prompt_body prompt)) w = (Throw e, w1) ->
     ask_gemini N env prompt w
     = (Normal (text_content (VStr ("Error calling Gemini: " ++ err_message e))), w1)).
Proof.
  unfold ask_gemini, try_catch, bind, lift, ret. split; [|split].
  - destruct (Worker.key_missing (Worker.GEMINI_API_KEY env)); [eauto|].
    destruct (net_fetch N _ _ w) as [[res|e] w1]; [|eauto].
    destruct (json res) as [data|e]; [|eauto].
    destruct (ok res); cbn [negb]; [|eauto].
    destruct (first_text data) as [text|e]; eauto.
  - intros Hkey. rewrite Hkey. reflexivity.
  - intros apiKey e w1 Hkey Hne Hfetch. rewrite Hkey. simpl.
    destruct (String.eqb_spec apiKey ""); [contradiction|].
    rewrite Hfetch. reflexivity.
Qed.

(** X14.  The MCP translator and summarizer never throw, and they do not
    look at the status of the response: a body other than [null] that
    holds no text, such as the service's error body, gives the fixed
    "failed" text under any status. *)
Theorem mcp_text_tools_ignore_status
    (env : Worker.Env) (text target_language : string)
    (source_language language : option string) (s : option style) (w : World E) :
  (exists t w', translate N env text target_language source_language w
                = (Normal (text_content t), w'))
  /\
  (exists t w', summarize N env text s language w = (Normal (text_content t), w'))
  /\
  (forall apiKey res w1 data,
     Worker.GEMINI_API_KEY env = Some apiKey -> apiKey <> "" ->
     net_fetch N (gemini_url apiKey)
       (Some (prompt_body (translate_prompt text target_language source_language))) w
     = (Normal res, w1) ->
     json res = Normal data ->
     first_text data = Normal VUndefined ->
     translate N env text target_language source_language w
     = (Normal (text_content (VStr "Translation failed")), w1))
  /\
  (forall apiKey res w1 data,
     Worker.GEMINI_API_KEY env = Some apiKey -> apiKey <> "" ->
     net_fetch N (gemini_url apiKey)
       (Some (prompt_body (summarize_prompt text s language))) w
     = (Normal res, w1) ->
     json res = Normal data ->
     first_text data = Normal VUndefined ->
     summarize N env text s language w
     = (Normal (text_content (VStr "Summarization failed")), w1)).
Proof.
  unfold translate, summarize, try_catch, bind, lift, ret.
  split; [|split; [|split]].
  - destruct (Worker.key_missing (Worker.GEMINI_API_KEY env)); [eauto|].
    destruct (net_fetch N _ _ w) as [[res|e] w1]; [|eauto].
    destruct (json res) as [data|e]; [|eauto].
    destruct (first_text data) as [t|e]; eauto.
  - destruct (Worker.key_missing (Worker.GEMINI_API_KEY env)); [eauto|].
    destruct (net_fetch N _ _ w) as [[res|e] w1]; [|eauto].
    destruct (json res) as [data|e]; [|eauto].
    destruct (first_text data) as [t|e]; eauto.
  - intros apiKey res w1 data Hkey Hne Hfetch Hjson Htext. rewrite Hkey. simpl.
    destruct (String.eqb_spec apiKey ""); [contradiction|].
    rewrite Hfetch, Hjson, Htext. reflexivity.
  - intros apiKey res w1 data Hkey Hne Hfetch Hjson Htext. rewrite Hkey. simpl.
    destruct (String.eqb_spec apiKey ""); [contradiction|].
    rewrite Hfetch, Hjson, Htext. reflexivity.
Qed.

End WithNet.

End McpMore.

(* ===================================================================== *)
(** * More worked sessions                                                *)
(* ===================================================================== *)

Module MoreScenarios.

Import Chat Gateway Scripted.

(** ** chat.ts *)

Lemma first_text_is_the_reply_witness :
  let parts :=
    [VObj [("thought", VBool true)]; text_segment "Hello."; text_segment "More."] in
  tool_loop env "k" 3 (asked "hi") (start [ok_reply (candidate parts)] offline)
  = (Normal (asked "hi", mkChatResponse (VStr "Hello.") []),
     record (Posted (endpoint "k") (contents (asked "hi"))) (start [] offline)).
Proof.
  intros parts.
  assert (Hnocall :
    Forall (fun p => exists u, get p "functionCall" = Normal u /\ truthy u = false)
           ([VObj [("thought", VBool true)]] ++ text_segment "Hello."
              :: [text_segment "More."])).
  { repeat constructor; exists VUndefined; split; reflexivity. }
  assert (Hbefore :
    Forall (fun p => exists u, get p "text" = Normal u /\ truthy u = false)
           [VObj [("thought", VBool true)]]).
  { repeat constructor; exists VUndefined; split; reflexivity. }
  exact (ChatMore.first_text_is_the_reply env "k" 2 (asked "hi")
           (start [ok_reply (candidate parts)] offline)
           (record (Posted (endpoint "k") (contents (asked "hi"))) (start [] offline))
           (mkResponse true (Normal (candidate parts))) (candidate parts)
           [VObj [("thought", VBool true)]] [text_segment "More."]
           (text_segment "Hello.") (VStr "Hello.")
           eq_refl eq_refl eq_refl eq_refl Hnocall Hbefore eq_refl eq_refl).
Defined.

Lemma nameless_call_is_recorded_witness :
  let parts := [VObj [("functionCall", VObj [("args", Seoul)])]] in
  iteration env "k" (asked "hi") (start [ok_reply (candidate parts)] offline)
  = (Normal (Continue
       (mkSession
          (contents (asked "hi")
           ++ [mkContent "model" (VArr parts);
               mkContent "user"
                 (function_response VUndefined "알 수 없는 도구: undefined")])
          [VUndefined])%list),
     record (Posted (endpoint "k") (contents (asked "hi"))) (start [] offline)).
Proof.
  intros parts.
  exact (ChatMore.nameless_call_is_recorded env "k" (asked "hi")
           (start [ok_reply (candidate parts)] offline)
           (record (Posted (endpoint "k") (contents (asked "hi"))) (start [] offline))
           (mkResponse true (Normal (candidate parts))) (candidate parts)
           [] [] (VObj [("functionCall", VObj [("args", Seoul)])])
           (VObj [("args", Seoul)])
           eq_refl eq_refl eq_refl eq_refl (Forall_nil _) eq_refl eq_refl eq_refl).
Defined.


(** ** index.ts, the chat route *)

Lemma chat_route_statuses_witness :
  exists payload w',
    Worker.chat_route env
      (Worker.mkRequest "/api/chat" "POST" (Normal (VObj [("message", VStr "")])))
      (Worker.mkEnv (Some "k")) (start [says "hello"] offline)
    = (Normal (Worker.JsonBody 400 payload), w') /\
    w' = start [says "hello"] offline.
Proof.
  destruct (RouteMore.chat_route_statuses env
              (Worker.mkRequest "/api/chat" "POST" (Normal (VObj [("message", VStr "")])))
              (Worker.mkEnv (Some "k")) (start [says "hello"] offline))
    as [status [payload [w' [Hrun [_ [Hbad _]]]]]].
  assert (Hstatus : status = 400) by (inversion Hrun; reflexivity).
  subst status. exists payload, w'. split; [exact Hrun | exact (Hbad eq_refl)].
Defined.

Lemma unwalkable_history_is_a_500_witness :
  exists msg,
    Worker.fetch env
      (Worker.mkRequest "/api/chat" "POST"
         (Normal (VObj [("message", VStr "hi");
                        ("history", VObj [("role", VStr "user")])])))
      (Worker.mkEnv (Some "k")) (start [says "hello"] offline)
    = (Normal (Worker.JsonBody 500 (Worker.error_body msg)),
       start [says "hello"] offline).
Proof.
  refine (RouteMore.unwalkable_history_is_a_500 env
            (Worker.mkRequest "/api/chat" "POST"
               (Normal (VObj [("message", VStr "hi");
                              ("history", VObj [("role", VStr "user")])])))
            (Worker.mkEnv (Some "k")) (start [says "hello"] offline)
            (VObj [("message", VStr "hi"); ("history", VObj [("role", VStr "user")])])
            (VObj [("role", VStr "user")]) "hi" "k"
            eq_refl eq_refl eq_refl eq_refl _ eq_refl eq_refl eq_refl eq_refl _);
    discriminate.
Defined.

(** ** tools.ts and the MCP tools, on the scripted network *)

Import RemoteTools.

Definition error_body : value :=
  VObj [("error", VObj [("code", VNum 503); ("message", VStr "overloaded")])].

Lemma callGemini_outcomes_witness :
  callGemini Lab.net "say hi" "k"
    (Lab.start [Normal (mkResponse false (Normal error_body))])
  = (Normal (VStr "Gemini API 오류: {}"),
     Lab.mkWorld [] [(gemini_url "k", Some (prompt_body "say hi"))])
  /\
  callGemini Lab.net "say hi" "k" (Lab.start [Lab.answer (VStr "")])
  = (Normal (VStr ""),
     Lab.mkWorld [] [(gemini_url "k", Some (prompt_body "say hi"))])
  /\
  callGemini Lab.net "say hi" "k" (Lab.start [ok_reply (VObj [])])
  = (Normal (VStr "응답 없음"),
     Lab.mkWorld [] [(gemini_url "k", Some (prompt_body "say hi"))])
  /\
  callGemini Lab.net "say hi" "k" (Lab.start [])
  = (Throw (TypeError "fetch failed"),
     Lab.mkWorld [] [(gemini_url "k", Some (prompt_body "say hi"))])
  /\
  callGemini Lab.net "say hi" "k" (Lab.start [garbled])
  = (Throw (SyntaxError "Unexpected token '<'"),
     Lab.mkWorld [] [(gemini_url "k", Some (prompt_body "say hi"))]).
Proof.
  split; [|split; [|split; [|split]]].
  - exact (proj1 (proj1 (RemoteMore.callGemini_outcomes Lab.net "say hi" "k"
                           (Lab.start [Normal (mkResponse false (Normal error_body))]))
                    _ _ _ eq_refl eq_refl) eq_refl).
  - destruct (proj2 (proj1 (RemoteMore.callGemini_outcomes Lab.net "say hi" "k"
                              (Lab.start [Lab.answer (VStr "")]))
                       _ _ _ eq_refl eq_refl) eq_refl eq_refl)
      as [text [Htext Hrun]].
    inversion Htext; subst text. exact Hrun.
  - destruct (proj2 (proj1 (RemoteMore.callGemini_outcomes Lab.net "say hi" "k"
                              (Lab.start [ok_reply (VObj [])]))
                       _ _ _ eq_refl eq_refl) eq_refl eq_refl)
      as [text [Htext Hrun]].
    inversion Htext; subst text. exact Hrun.
  - exact (proj1 (proj2 (RemoteMore.callGemini_outcomes Lab.net "say hi" "k"
                           (Lab.start []))) _ _ eq_refl).
  - exact (proj2 (proj2 (RemoteMore.callGemini_outcomes Lab.net "say hi" "k"
                           (Lab.start [garbled]))) _ _ _ eq_refl eq_refl).
Defined.



(** A style that names an inherited member is neither: the prompt opens
    with what the platform prints for a function. *)
Example summarize_prompt_inherited_style :
  exists tail,
    summarize_prompt Lab.net (VStr "a long text") (VStr "toString") VUndefined
    = "function toString() { [native code] }." ++ tail.
Proof. eexists. reflexivity. Qed.


(** A full report, for comparison: two requests, the second built from
    the first answer. *)
Example executeWeather_report :
  let place := VObj [("latitude", VNum 37); ("longitude", VNum 127);
                     ("name", VStr "Seoul"); ("country", VStr "South Korea")] in
  let current := VObj [("weather_code", VNum 3); ("temperature_2m", VNum 5);
                       ("relative_humidity_2m", VNum 40);
                       ("wind_speed_10m", VNum 12)] in
  let run :=
    executeWeather Lab.net Seoul
      (Lab.start [ok_reply (VObj [("results", VArr [place])]);
                  ok_reply (VObj [("current", current)])]) in
  fst run
  = Normal ("📍 Seoul, South Korea" ++ LF ++ "🌡️ 기온: 5°C" ++ LF
            ++ "💧 습도: 40%" ++ LF ++ "💨 풍속: 12 km/h" ++ LF ++ "🌤️ 상태: 흐림")
  /\ map fst (Lab.asked (snd run))
     = [geocoding_url Lab.net (VStr "Seoul");
        forecast_url Lab.net (VNum 37) (VNum 127)].
Proof. split; reflexivity. Qed.

Import Mcp.

Lemma calculators_agree_witness :
  (calculate Lab.net divide 7 (-0)
   = text_content (VStr "Error: Division by zero") /\
   Tools.executeCalculate Lab.environment
     (VObj [("operation", VStr "divide"); ("a", VNum 7); ("b", VNum (-0))])
   = Normal "오류: 0으로 나눌 수 없습니다")
  /\
  (calculate Lab.net divide 12 4 = text_content (VStr "3") /\
   Tools.executeCalculate Lab.environment
     (VObj [("operation", VStr "divide"); ("a", VNum 12); ("b", VNum 4)])
   = Normal "12 divide 4 = 3").
Proof.
  split.
  - exact (proj1 (McpMore.calculators_agree Lab.net divide 7 (-0)) eq_refl eq_refl).
  - exact (proj2 (McpMore.calculators_agree Lab.net divide 12 4) (fun _ => eq_refl)).
Defined.

Lemma ask_gemini_contains_failures_witness :
  ask_gemini Lab.net (Worker.mkEnv None) "hi" (Lab.start [Lab.answer (VStr "hello")])
  = (Normal (text_content (VStr "Error: GEMINI_API_KEY is not configured")),
     Lab.start [Lab.answer (VStr "hello")])
  /\
  ask_gemini Lab.net (Worker.mkEnv (Some "k")) "hi" (Lab.start [])
  = (Normal (text_content (VStr "Error calling Gemini: fetch failed")),
     Lab.mkWorld [] [(gemini_url "k", Some (prompt_body "hi"))]).
Proof.
  split.
  - exact (proj1 (proj2 (McpMore.ask_gemini_contains_failures Lab.net
                           (Worker.mkEnv None) "hi"
                           (Lab.start [Lab.answer (VStr "hello")]))) eq_refl).
  - refine (proj2 (proj2 (McpMore.ask_gemini_contains_failures Lab.net
                            (Worker.mkEnv (Some "k")) "hi" (Lab.start [])))
              "k" _ _ eq_refl _ eq_refl).
    discriminate.
Defined.

Lemma mcp_text_tools_ignore_status_witness :
  translate Lab.net (Worker.mkEnv (Some "k")) "good morning" "Korean" None
    (Lab.start [Normal (mkResponse false (Normal error_body))])
  = (Normal (text_content (VStr "Translation failed")),
     Lab.mkWorld []
       [(gemini_url "k",
         Some (prompt_body (Mcp.translate_prompt "good morning" "Korean" None)))])
  /\
  summarize Lab.net (Worker.mkEnv (Some "k")) "a long text" (Some detailed) None
    (Lab.start [Normal (mkResponse false (Normal error_body))])
  = (Normal (text_content (VStr "Summarization failed")),
     Lab.mkWorld []
       [(gemini_url "k",
         Some (prompt_body (Mcp.summarize_prompt "a long text" (Some detailed) None)))]).
Proof.
  split.
  - refine (proj1 (proj2 (proj2 (McpMore.mcp_text_tools_ignore_status Lab.net
                            (Worker.mkEnv (Some "k")) "good morning" "Korean"
                            None None None
                            (Lab.start [Normal (mkResponse false (Normal error_body))]))))
              "k" _ _ error_body eq_refl _ eq_refl eq_refl eq_refl).
    discriminate.
  - refine (proj2 (proj2 (proj2 (McpMore.mcp_text_tools_ignore_status Lab.net
                            (Worker.mkEnv (Some "k")) "a long text" "Korean"
                            None None (Some detailed)
                            (Lab.start [Normal (mkResponse false (Normal error_body))]))))
              "k" _ _ error_body eq_refl _ eq_refl eq_refl eq_refl).
    discriminate.
Defined.

End MoreScenarios.
